(** * RGB565 RAW converter (converter.py): shallow embedding and properties

    The development follows the layout of [converter.py]:
    - [Py]       : the fragment of Python the script relies on (exceptions,
                   [range], [for] loops, [bytes]);
    - [Pillow]   : the image objects the script manipulates and the Pillow
                   operations it calls;
    - [OS]       : the part of the file system the script reads and writes;
    - [Converter]: [convert_to_raw], [generate_test_image],
                   [auto_detect_directories] and [main].
    Calls to [print] are left out: they touch neither the control flow nor
    the files. *)

From Stdlib Require Import ZArith List String Ascii Bool Lia DecimalString
  FinFun.
Import ListNotations.
Local Open Scope Z_scope.

(* ===================================================================== *)
(** ** Python fragment *)
(* ===================================================================== *)

Module Py.

(** The exceptions that the modelled statements can raise. *)
Inductive exn : Type :=
| UnboundLocalError   (* a local variable is read before any assignment *)
| IndexError          (* pixel access outside the image *)
| ValueError          (* bytes() of a value outside range(256), bad size *)
| OSError.            (* file system failure, undecodable image file *)

(** A statement either completes with a value or raises; what an
    interrupted statement had already changed is not kept. *)
Inductive result (A : Type) : Type :=
| Ok (a : A)
| Raise (e : exn).
Arguments Ok {A} a.
Arguments Raise {A} e.

Definition bind {A B : Type} (m : result A) (k : A -> result B) : result B :=
  match m with
  | Ok a => k a
  | Raise e => Raise e
  end.

(** [range(n)]: 0, 1, ..., n-1; empty when n <= 0. *)
Definition range (n : Z) : list Z := map Z.of_nat (seq 0 (Z.to_nat n)).

(** [for x in xs: body] threading the mutated state [s]; an exception
    raised by the body leaves the loop. *)
Fixpoint for_each {A S : Type} (xs : list A) (body : A -> S -> result S)
                  (s : S) : result S :=
  match xs with
  | [] => Ok s
  | x :: xs' => bind (body x s) (for_each xs' body)
  end.

(** [bytes([b0, b1, ...])]: every element must be in range(256). *)
Definition bytes (l : list Z) : result (list Z) :=
  if forallb (fun b => (0 <=? b) && (b <? 256)) l then Ok l
  else Raise ValueError.

(** Process exit status of the script: 0 when [main()] returns, 1 when an
    exception escapes. *)
Definition exit_status {A : Type} (r : result A) : Z :=
  match r with
  | Ok _ => 0
  | Raise _ => 1
  end.

End Py.

Import Py.

Declare Scope py_scope.
Delimit Scope py_scope with py.
Notation "x <- m ;; k" := (bind m (fun x => k))
  (at level 61, m at next level, right associativity) : py_scope.
Notation "' p <- m ;; k" := (bind m (fun v => let p := v in k))
  (at level 61, p pattern, m at next level, right associativity) : py_scope.
Local Open Scope py_scope.

(* ===================================================================== *)
(** ** Pillow images *)
(* ===================================================================== *)

Module Pillow.

Definition rgb : Type := (Z * Z * Z)%type.
Definition rgba : Type := (Z * Z * Z * Z)%type.

(** A decoded bitmap: its [size] (width, height) and its pixel store. *)
Record Bitmap (A : Type) : Type := mkBitmap {
  bm_size : Z * Z;
  bm_px : Z -> Z -> A
}.
Arguments mkBitmap {A} bm_size bm_px.
Arguments bm_size {A} b.
Arguments bm_px {A} b x y.

(** Image objects, by pixel mode.  The modes covered are the 8-bit modes
    with and without an alpha band: 'RGB', 'RGBA', 'L' (grey) and 'LA'
    (grey with alpha). *)
Inductive Image : Type :=
| ImRGB  (b : Bitmap rgb)
| ImRGBA (b : Bitmap rgba)
| ImL    (b : Bitmap Z)
| ImLA   (b : Bitmap (Z * Z)).

(** [img.mode] *)
Definition mode (img : Image) : string :=
  match img with
  | ImRGB _ => "RGB"
  | ImRGBA _ => "RGBA"
  | ImL _ => "L"
  | ImLA _ => "LA"
  end.

(** [img.size] *)
Definition size (img : Image) : Z * Z :=
  match img with
  | ImRGB b => bm_size b
  | ImRGBA b => bm_size b
  | ImL b => bm_size b
  | ImLA b => bm_size b
  end.

Definition in_bounds {A : Type} (b : Bitmap A) (x y : Z) : bool :=
  (0 <=? x) && (x <? fst (bm_size b)) && (0 <=? y) && (y <? snd (bm_size b)).

(** [img.getpixel((x, y))] *)
Definition getpixel {A : Type} (b : Bitmap A) (x y : Z) : result A :=
  if in_bounds b x y then Ok (bm_px b x y) else Raise IndexError.

(** [img.putpixel((x, y), v)] *)
Definition putpixel {A : Type} (b : Bitmap A) (x y : Z) (v : A)
  : result (Bitmap A) :=
  if in_bounds b x y
  then Ok (mkBitmap (bm_size b)
             (fun x' y' => if (x' =? x) && (y' =? y) then v else bm_px b x' y'))
  else Raise IndexError.

(** [Image.new('RGB', size, color)] *)
Definition new_rgb (sz : Z * Z) (color : rgb) : Bitmap rgb :=
  mkBitmap sz (fun _ _ => color).

(** Rounded division by 255 as Pillow computes it on 8-bit bands. *)
Definition DIV255 (a : Z) : Z :=
  let tmp := a + 128 in
  Z.shiftr (Z.shiftr tmp 8 + tmp) 8.

(** Blend of one band under an 'L' mask value: [in1] is the destination,
    [in2] the pasted band. *)
Definition BLEND8 (mask in1 in2 : Z) : Z :=
  DIV255 (in1 * (255 - mask) + in2 * mask).

(** [background.paste(img, mask=img.split()[3])] for an RGBA [img] pasted at
    the origin of an RGB [background] of the same size: every band of every
    pixel is blended under the alpha band of [img]. *)
Definition paste_alpha (background : Bitmap rgb) (img : Bitmap rgba)
  : Bitmap rgb :=
  mkBitmap (bm_size background)
    (fun x y =>
       let '(r0, g0, b0) := bm_px background x y in
       let '(r, g, b, a) := bm_px img x y in
       (BLEND8 a r0 r, BLEND8 a g0 g, BLEND8 a b0 b)).

(** [img.convert('RGB')]: grey is replicated on the three bands, an alpha
    band is dropped. *)
Definition convert_rgb (img : Image) : Bitmap rgb :=
  match img with
  | ImRGB b => b
  | ImRGBA b =>
      mkBitmap (bm_size b) (fun x y => let '(r, g, bl, _) := bm_px b x y in (r, g, bl))
  | ImL b =>
      mkBitmap (bm_size b) (fun x y => let v := bm_px b x y in (v, v, v))
  | ImLA b =>
      mkBitmap (bm_size b) (fun x y => let '(v, _) := bm_px b x y in (v, v, v))
  end.

(** The Pillow operations whose result is not computed here: Lanczos
    resampling to a different size and the JPEG codec (an image saved as
    JPEG and decoded again). *)
Class Codec : Type := {
  lanczos : Bitmap rgb -> Z -> Z -> Bitmap rgb;
  jpeg : Bitmap rgb -> Image
}.

(** [img.resize((width, height), Image.LANCZOS)]: an image that already has
    the requested size is copied, any other is resampled. *)
Definition resize `{Codec} (b : Bitmap rgb) (width height : Z)
  : result (Bitmap rgb) :=
  if (fst (bm_size b) =? width) && (snd (bm_size b) =? height) then Ok b
  else if (width <? 1) || (height <? 1) then Raise ValueError
  else Ok (lanczos b width height).

End Pillow.

Import Pillow.

(* ===================================================================== *)
(** ** File system *)
(* ===================================================================== *)

Module OS.

(** What the script can find in a file of [imgs]: a decodable picture, or
    something [Image.open] rejects ([None]). *)
Definition File : Type := option Image.

(** What the script leaves under [assets]. *)
Inductive Content : Type :=
| Directory
| Raw (data : list Z)     (* a .raw file and its bytes *)
| HowToUse.               (* the instructions file *)

(** The project directory: the entries of [imgs] in directory order
    ([None] when [imgs] does not exist), the tree under [assets] by path,
    and whether the disk accepts writes. *)
Record World : Type := mkWorld {
  imgs : option (list (string * File));
  assets : list (string * Content);
  writable : bool
}.

Definition set_imgs (w : World) (es : list (string * File)) : World :=
  mkWorld (Some es) (assets w) (writable w).

Definition set_assets (w : World) (a : list (string * Content)) : World :=
  mkWorld (imgs w) a (writable w).

(** Association lists keyed by file name: lookup, and update in place or
    at the end. *)
Fixpoint lookup {A : Type} (k : string) (l : list (string * A)) : option A :=
  match l with
  | [] => None
  | (k', v) :: l' => if String.eqb k k' then Some v else lookup k l'
  end.

Fixpoint update {A : Type} (k : string) (v : A) (l : list (string * A))
  : list (string * A) :=
  match l with
  | [] => [(k, v)]
  | (k', v') :: l' =>
      if String.eqb k k' then (k, v) :: l' else (k', v') :: update k v l'
  end.

(** [os.path.exists(imgs_dir)] *)
Definition imgs_exists (w : World) : bool :=
  match imgs w with
  | Some _ => true
  | None => false
  end.

(** [os.makedirs(imgs_dir, exist_ok=True)] *)
Definition makedirs_imgs (w : World) : result World :=
  match imgs w with
  | Some _ => Ok w
  | None => if writable w then Ok (set_imgs w []) else Raise OSError
  end.

(** [os.makedirs(dir, exist_ok=True)] under [assets] *)
Definition makedirs_out (w : World) (dir : string) : result World :=
  match lookup dir (assets w) with
  | Some Directory => Ok w
  | Some _ => Raise OSError
  | None =>
      if writable w then Ok (set_assets w (update dir Directory (assets w)))
      else Raise OSError
  end.

(** [shutil.rmtree(base_assets, ignore_errors=True)] *)
Definition rmtree_assets (w : World) : World :=
  if writable w then set_assets w [] else w.

(** [open(path, "wb")] / [open(path, "w")]: the file is created empty.
    The path is taken to lie in an existing directory and to name no
    directory, as the paths that [main] opens do. *)
Definition open_wb (w : World) (path : string) : result World :=
  if writable w then Ok (set_assets w (update path (Raw []) (assets w)))
  else Raise OSError.

(** The content of [path] once the file is closed. *)
Definition store (w : World) (path : string) (c : Content) : World :=
  set_assets w (update path c (assets w)).

(** [Image.open(os.path.join(imgs_dir, name))] followed by the decoding *)
Definition image_open (w : World) (name : string) : result Image :=
  match imgs w with
  | Some es =>
      match lookup name es with
      | Some (Some img) => Ok img
      | _ => Raise OSError
      end
  | None => Raise OSError
  end.

(** [test_img.save(os.path.join("imgs", name), quality=95)] *)
Definition save_jpeg `{Codec} (w : World) (name : string) (b : Bitmap rgb)
  : result World :=
  match imgs w with
  | Some es =>
      if writable w then Ok (set_imgs w (update name (Some (jpeg b)) es))
      else Raise OSError
  | None => Raise OSError
  end.

(** [name] ends with [ext]. *)
Definition with_ext (ext name : string) : bool :=
  let n := String.length name in
  let k := String.length ext in
  (k <=? n)%nat && String.eqb (substring (n - k) k name) ext.

(** [name] contains a dot. *)
Definition any_dotted (name : string) : bool :=
  match index 0 "." name with
  | Some _ => true
  | None => false
  end.

(** [glob.glob(os.path.join(imgs_dir, pattern))], as file names: the
    entries matching the pattern, names with a leading dot excluded.
    [with_ext ".jpg"] stands for the pattern [*.jpg], [any_dotted] for
    [*.*]; letter case counts, as on a POSIX file system. *)
Definition glob (w : World) (pattern : string -> bool) : list string :=
  match imgs w with
  | Some es =>
      filter (fun name => negb (prefix "." name) && pattern name)
             (map fst es)
  | None => []
  end.

(** Index of the last dot of [s], counting from [i]. *)
Fixpoint rfind_dot (s : string) (i : nat) : option nat :=
  match s with
  | EmptyString => None
  | String c s' =>
      match rfind_dot s' (S i) with
      | Some j => Some j
      | None => if Ascii.eqb c "." then Some i else None
      end
  end.

(** Some character among the first [n] of [s] is not a dot. *)
Fixpoint has_stem (s : string) (n : nat) : bool :=
  match n, s with
  | S n', String c s' => negb (Ascii.eqb c ".") || has_stem s' n'
  | _, _ => false
  end.

(** [os.path.splitext(name)[0]]: the name up to its last dot, leading dots
    not counting as the start of an extension. *)
Definition splitext_root (name : string) : string :=
  match rfind_dot name 0 with
  | Some i => if has_stem name i then substring 0 i name else name
  | None => name
  end.

End OS.

Import OS.

(* ===================================================================== *)
(** ** converter.py *)
(* ===================================================================== *)

Module Converter.

Definition SCREEN_WIDTH : Z := 240.
Definition SCREEN_HEIGHT : Z := 240.
Definition TEST_MODES : list Z := [0; 1; 2; 3; 4; 5; 6; 7].

(** Lines 47-66: the branch on [mode] that assigns [pixel].  No branch is
    taken for a mode outside 0..7, and [pixel] stays unbound ([None]). *)
Definition base_pixel (r g b mode : Z) : option Z :=
  if (mode =? 0) || (mode =? 4) then
    let r5 := Z.land (Z.shiftr r 3) 0x1F in
    let g6 := Z.land (Z.shiftr g 2) 0x3F in
    let b5 := Z.land (Z.shiftr b 3) 0x1F in
    Some (Z.lor (Z.lor (Z.shiftl r5 11) (Z.shiftl g6 5)) b5)
  else if (mode =? 1) || (mode =? 5) then
    let b5 := Z.land (Z.shiftr b 3) 0x1F in
    let g6 := Z.land (Z.shiftr g 2) 0x3F in
    let r5 := Z.land (Z.shiftr r 3) 0x1F in
    Some (Z.lor (Z.lor (Z.shiftl b5 11) (Z.shiftl g6 5)) r5)
  else if (mode =? 2) || (mode =? 6) then
    let r5 := Z.land (Z.shiftr r 3) 0x1F in
    let g5 := Z.land (Z.shiftr g 3) 0x1F in
    let b5 := Z.land (Z.shiftr b 3) 0x1F in
    Some (Z.lor (Z.lor (Z.shiftl r5 11) (Z.shiftl g5 6)) b5)
  else if (mode =? 3) || (mode =? 7) then
    let b5 := Z.land (Z.shiftr b 3) 0x1F in
    let g5 := Z.land (Z.shiftr g 3) 0x1F in
    let r5 := Z.land (Z.shiftr r 3) 0x1F in
    Some (Z.lor (Z.lor (Z.shiftl b5 11) (Z.shiftl g5 6)) r5)
  else None.

(** Reading the local [pixel]. *)
Definition read_local (v : option Z) : result Z :=
  match v with
  | Some p => Ok p
  | None => Raise UnboundLocalError
  end.

(** Lines 47-70: the value of [pixel] when it reaches [f.write]. *)
Definition pixel_value (r g b mode : Z) : result Z :=
  let pixel := base_pixel r g b mode in
  if mode >=? 4 then
    p <- read_local pixel ;;
    Ok (0xFFFF - p)
  else read_local pixel.

(** Line 73: the argument of [f.write]. *)
Definition pixel_bytes (pixel : Z) : result (list Z) :=
  bytes [Z.land pixel 0xFF; Z.land (Z.shiftr pixel 8) 0xFF].

(** Lines 41-73: the body of [with open(output_path, "wb") as f], on the
    prepared image.  The file is the list of bytes written so far. *)
Definition write_pixels (img : Bitmap rgb) (width height mode : Z)
                        (f : list Z) : result (list Z) :=
  for_each (range height) (fun y f =>
    for_each (range width) (fun x f =>
      '(r, g, b) <- getpixel img x y ;;
      pixel <- pixel_value r g b mode ;;
      bs <- pixel_bytes pixel ;;
      Ok (f ++ bs)) f) f.

(** Lines 30-35: the image brought to mode 'RGB'.  The constructor of the
    image is its [mode]: 'RGBA' is flattened on white, 'RGB' is kept, any
    other mode goes through [convert]. *)
Definition to_rgb (img : Image) : Bitmap rgb :=
  match img with
  | ImRGBA b =>
      let background := new_rgb (bm_size b) (255, 255, 255) in
      paste_alpha background b
  | ImRGB b => b
  | ImL _ | ImLA _ => convert_rgb img
  end.

(** Lines 27-38 after [Image.open]: image preparation. *)
Definition prepare `{Codec} (img : Image) (width height : Z)
  : result (Bitmap rgb) :=
  resize (to_rgb img) width height.

(** Lines 30-73 on the decoded image: the bytes written to the output. *)
Definition raw_bytes `{Codec} (img : Image) (width height mode : Z)
  : result (list Z) :=
  img' <- prepare img width height ;;
  write_pixels img' width height mode [].

(** [convert_to_raw(image_path, output_path, width, height, mode)] *)
Definition convert_to_raw `{Codec} (w : World)
    (image_path output_path : string) (width height mode : Z)
  : result World :=
  img <- image_open w image_path ;;
  img' <- prepare img width height ;;
  w <- open_wb w output_path ;;
  data <- write_pixels img' width height mode [] ;;
  Ok (store w output_path (Raw data)).

(** Lines 83-93: the body of the two loops of [generate_test_image].  The
    operands of the true division are integers with a non-negative
    numerator and the divisor 120, so [int(a / b)] is the integer
    quotient. *)
Definition paint (x y : Z) (test_img : Bitmap rgb) : result (Bitmap rgb) :=
  test_img <-
    (if x <? 80 then putpixel test_img x y (255, 0, 0)
     else if x <? 160 then putpixel test_img x y (0, 255, 0)
     else if x <? 240 then putpixel test_img x y (0, 0, 255)
     else Ok test_img) ;;
  if x >=? 120 then
    let gray := 255 * (x - 120) / (SCREEN_WIDTH - 120) in
    putpixel test_img x y (gray, gray, gray)
  else Ok test_img.

(** Lines 77-93: the test picture before it is saved. *)
Definition test_pattern : result (Bitmap rgb) :=
  let test_img := new_rgb (SCREEN_WIDTH, SCREEN_HEIGHT) (0, 0, 0) in
  for_each (range SCREEN_HEIGHT) (fun y test_img =>
    for_each (range SCREEN_WIDTH) (fun x test_img =>
      paint x y test_img) test_img) test_img.

(** [generate_test_image()] *)
Definition generate_test_image `{Codec} (w : World)
  : result (World * string) :=
  test_img <- test_pattern ;;
  w <- makedirs_imgs w ;;
  w <- save_jpeg w "test_pattern.jpg" test_img ;;
  Ok (w, "test_pattern.jpg"%string).

(** [auto_detect_directories()]: the second component is the path of the
    generated test picture, if one was generated. *)
Definition auto_detect_directories `{Codec} (w : World)
  : result (World * option string) :=
  if negb (imgs_exists w) then
    w <- makedirs_imgs w ;;
    '(w, test_path) <- generate_test_image w ;;
    Ok (w, Some test_path)
  else
    let image_files := glob w any_dotted in
    match image_files with
    | [] =>
        '(w, test_path) <- generate_test_image w ;;
        Ok (w, Some test_path)
    | _ :: _ => Ok (w, None)
    end.

(** ["mode_{}".format(mode)] under [base_assets] *)
Definition mode_dir_of (mode : Z) : string :=
  ("assets/mode_" ++ NilZero.string_of_int (Z.to_int mode))%string.

(** Lines 158-171: the loop over [TEST_MODES]. *)
Definition convert_all `{Codec} (image_files : list string) (w : World)
  : result World :=
  for_each TEST_MODES (fun mode w =>
    let mode_dir := mode_dir_of mode in
    w <- makedirs_out w mode_dir ;;
    for_each image_files (fun img_path w =>
      let filename := img_path in
      let raw_path :=
        (mode_dir ++ "/" ++ splitext_root filename ++ ".raw")%string in
      convert_to_raw w img_path raw_path SCREEN_WIDTH SCREEN_HEIGHT mode) w) w.

(** [main()].  When no picture is found the function returns at line 137,
    like any other normal return. *)
Definition main `{Codec} (w : World) : result World :=
  '(w, test_image) <- auto_detect_directories w ;;
  let image_files :=
    (glob w (with_ext ".jpg") ++ glob w (with_ext ".jpeg")
       ++ glob w (with_ext ".png"))%list in
  match image_files with
  | [] => Ok w
  | _ :: _ =>
      let w := rmtree_assets w in
      w <- convert_all image_files w ;;
      w <- open_wb w "assets/HOW_TO_USE.txt" ;;
      Ok (store w "assets/HOW_TO_USE.txt" HowToUse)
  end.

(** What running the script reports to its caller. *)
Definition run `{Codec} (w : World) : Z := exit_status (main w).

End Converter.

Import Converter.

(* ===================================================================== *)
(** ** Vocabulary of the properties *)
(* ===================================================================== *)

Module Spec.

(** A mode 0..7 read as three bits: bit 0 is the channel order (BGR when
    set), bit 1 the packing (compact when set), bit 2 the polarity. *)
Definition bgr (mode : Z) : bool := Z.testbit mode 0.
Definition compact (mode : Z) : bool := Z.testbit mode 1.

(** The three shifted fields that a mode ORs together. *)
Definition top_field (r g b mode : Z) : Z :=
  Z.shiftl (Z.shiftr (if bgr mode then b else r) 3) 11.

Definition mid_field (r g b mode : Z) : Z :=
  if compact mode then Z.shiftl (Z.shiftr g 3) 6
  else Z.shiftl (Z.shiftr g 2) 5.

Definition low_field (r g b mode : Z) : Z :=
  Z.shiftr (if bgr mode then r else b) 3.

(** A 16-bit word as two bytes, low byte first. *)
Definition le16 (v : Z) : list Z :=
  [Z.land v 0xFF; Z.land (Z.shiftr v 8) 0xFF].

(** Row-major scan of a width x height grid, top row first: the
    coordinates (x, y) in the order they are visited. *)
Definition scan (width height : Z) : list (Z * Z) :=
  flat_map (fun y => map (fun x => (x, y)) (range width)) (range height).

(** What the encoder computes for the pixel at [xy = (x, y)] of the
    prepared image. *)
Definition pixel_word (img : Bitmap rgb) (mode : Z) (xy : Z * Z) : result Z :=
  let '(r, g, b) := bm_px img (fst xy) (snd xy) in
  pixel_value r g b mode.

(** The value of a completed computation (0 when it raised). *)
Definition word_of (w : result Z) : Z :=
  match w with
  | Ok v => v
  | Raise _ => 0
  end.

(** The contract of the resampler: the picture it returns has the
    requested size. *)
Definition honours_size `{Codec} : Prop :=
  forall b width height,
    0 < width -> 0 < height ->
    bm_size (lanczos b width height) = (width, height).

(** The image carries an alpha band. *)
Definition has_alpha (img : Image) : bool :=
  match img with
  | ImRGBA _ | ImLA _ => true
  | ImRGB _ | ImL _ => false
  end.

(** The alpha value of the pixel at (x, y), when there is one. *)
Definition alpha_at (img : Image) (x y : Z) : option Z :=
  match img with
  | ImRGBA b => let '(_, _, _, a) := bm_px b x y in Some a
  | ImLA b => let '(_, a) := bm_px b x y in Some a
  | ImRGB _ | ImL _ => None
  end.

(** The colour of the pixel at (x, y) as [convert('RGB')] reads it. *)
Definition color_at (img : Image) (x y : Z) : rgb :=
  bm_px (convert_rgb img) x y.

Definition white : rgb := (255, 255, 255).

(** The colours of the test picture: a red and a green stripe, then the
    grey ramp that starts at x = 120. *)
Definition stripe (x : Z) : rgb :=
  if x <? 80 then (255, 0, 0)
  else if x <? 120 then (0, 255, 0)
  else let gray := 255 * (x - 120) / 120 in (gray, gray, gray).

(** The bits of a triple that a mode keeps: the top 5 bits of red and
    blue, the top 6 bits of green (the top 5 in a compact mode). *)
Definition kept_bits (r g b mode : Z) : Z * Z * Z :=
  (Z.shiftr r 3, Z.shiftr g (if compact mode then 3 else 2), Z.shiftr b 3).

(** Every byte replaced by its 8-bit complement. *)
Definition complement_bytes (l : list Z) : list Z :=
  map (fun byte => 255 - byte) l.

(** The pictures that [main] finds, in the order it converts them. *)
Definition image_files_of (w : World) : list string :=
  (glob w (with_ext ".jpg") ++ glob w (with_ext ".jpeg")
     ++ glob w (with_ext ".png"))%list.

(** The path of the .raw file that [main] writes for a picture in a
    mode. *)
Definition raw_path_of (mode : Z) (name : string) : string :=
  (mode_dir_of mode ++ "/" ++ splitext_root name ++ ".raw")%string.

(** No dot among the characters of [s]. *)
Fixpoint dotless (s : string) : bool :=
  match s with
  | EmptyString => true
  | String c s' => negb (Ascii.eqb c ".") && dotless s'
  end.

(** What a completed run leaves under [assets]: the directories of the
    modes and, in them, .raw files of [size] bytes. *)
Definition mode_tree (size : Z) (a : list (string * Content)) : Prop :=
  forall path c,
    lookup path a = Some c ->
    (c = Directory /\ exists mode, In mode TEST_MODES /\ path = mode_dir_of mode)
    \/
    (exists mode name data,
        In mode TEST_MODES /\ path = raw_path_of mode name /\
        c = Raw data /\ Z.of_nat (List.length data) = size).

(** The raw file of the picture [name] in [mode] holds the bytes of a
    found picture with that raw path. *)
Definition converted `{Codec} (w0 : World) (files : list string)
    (a : list (string * Content)) (mode : Z) (name : string) : Prop :=
  exists name' img data,
    In name' files /\
    raw_path_of mode name' = raw_path_of mode name /\
    image_open w0 name' = Ok img /\
    raw_bytes img SCREEN_WIDTH SCREEN_HEIGHT mode = Ok data /\
    lookup (raw_path_of mode name) a = Some (Raw data).

(** What every state of the conversion loops of a run started in [w0]
    satisfies. *)
Definition run_state (w0 s : World) : Prop :=
  writable s = true /\ imgs s = imgs w0 /\
  mode_tree (SCREEN_WIDTH * SCREEN_HEIGHT * 2) (assets s).

End Spec.

Import Spec.

(* ===================================================================== *)
(** ** Concrete inputs *)
(* ===================================================================== *)

Module Samples.

(** A codec to run the model with: nearest-neighbour resampling and a
    lossless codec. *)
Definition nearest : Codec := {|
  lanczos := fun b width height =>
    mkBitmap (width, height)
      (fun x y => bm_px b (x * fst (bm_size b) / width)
                          (y * snd (bm_size b) / height));
  jpeg := ImRGB
|}.

(** The 2x1 picture whose pixels are all pure red. *)
Definition red_2x1 : Image := ImRGB (new_rgb (2, 1) (255, 0, 0)).

(** A 2x1 RGBA picture: a fully transparent black pixel, then a fully
    opaque blue one. *)
Definition rgba_2x1 : Image :=
  ImRGBA (mkBitmap (2, 1)
            (fun x _ => if x =? 0 then (0, 0, 0, 0) else (10, 20, 250, 255))).

(** A 1x1 grey picture with an alpha band: one fully transparent black
    pixel, as a PNG of colour type 4 decodes. *)
Definition la_1x1 : Image := ImLA (mkBitmap (1, 1) (fun _ _ => (0, 0))).

(** A 3x2 picture with distinct pixels. *)
Definition ramp_3x2 : Bitmap rgb :=
  mkBitmap (3, 2) (fun x y => (80 * x + 8, 100 * y + 4, 16 * (x + y))).

(** A project directory whose [imgs] holds only a text file. *)
Definition notes_only : World :=
  {| imgs := Some [("notes.txt"%string, None)];
     assets := [];
     writable := true |}.

(** A project directory without [imgs], on a read-only disk. *)
Definition read_only_empty : World :=
  {| imgs := None; assets := []; writable := false |}.

(** A project directory with one picture. *)
Definition one_picture : World :=
  {| imgs := Some [("red.png"%string, Some red_2x1)];
     assets := [];
     writable := true |}.

(** A project directory whose one picture does not decode. *)
Definition broken_picture : World :=
  {| imgs := Some [("broken.jpg"%string, None)];
     assets := [];
     writable := true |}.

(** A project directory with one picture, on a read-only disk that still
    holds the tree of an earlier run. *)
Definition read_only_picture : World :=
  {| imgs := Some [("red.png"%string, Some red_2x1)];
     assets := [("assets/mode_0"%string, Directory)];
     writable := false |}.

(** A project directory whose [imgs] holds only a text file, on a disk
    that refuses writes. *)
Definition notes_only_read_only : World :=
  {| imgs := Some [("notes.txt"%string, None)];
     assets := [];
     writable := false |}.

(** A project directory whose [imgs] holds pictures of the three kinds,
    two of them with the same stem, beside a hidden picture, a text file,
    a picture with an upper-case extension and a file without
    extension. *)
Definition mixed_directory : World :=
  {| imgs := Some [("b.png"%string, Some red_2x1);
                   ("a.jpeg"%string, Some red_2x1);
                   (".hidden.png"%string, Some red_2x1);
                   ("notes.txt"%string, None);
                   ("a.jpg"%string, Some red_2x1);
                   ("c.JPG"%string, Some red_2x1);
                   ("README"%string, None)];
     assets := [];
     writable := true |}.

(** An empty project directory on a writable disk. *)
Definition fresh_project : World :=
  {| imgs := None; assets := []; writable := true |}.

End Samples.


(* ===================================================================== *)
(** ** Bit-level facts used by the encoder *)
(* ===================================================================== *)

Section BitFacts.

(** Masking with [2^n - 1] keeps the low [n] bits. *)
Lemma land_mask_mod (a n : Z) :
  0 <= n -> Z.land a (2 ^ n - 1) = a mod 2 ^ n.
Proof.
  intros Hn. replace (2 ^ n - 1) with (Z.ones n).
  - now apply Z.land_ones.
  - rewrite Z.ones_equiv. lia.
Qed.

Lemma land_mask_range (a n : Z) :
  0 <= n -> 0 <= Z.land a (2 ^ n - 1) < 2 ^ n.
Proof.
  intros Hn. rewrite land_mask_mod by assumption.
  apply Z.mod_pos_bound. apply Z.pow_pos_nonneg; lia.
Qed.

(** The top [8 - k] bits of an 8-bit channel already fit the mask. *)
Lemma channel_top_bits (c k : Z) :
  0 <= c < 256 -> 0 <= k <= 8 ->
  Z.land (Z.shiftr c k) (2 ^ (8 - k) - 1) = Z.shiftr c k.
Proof.
  intros Hc Hk. rewrite land_mask_mod by lia.
  rewrite Z.shiftr_div_pow2 by lia.
  apply Z.mod_small.
  assert (Hp : 0 < 2 ^ k) by (apply Z.pow_pos_nonneg; lia).
  split.
  - apply Z.div_pos; lia.
  - apply Z.div_lt_upper_bound; [assumption|].
    rewrite <- Z.pow_add_r by lia.
    replace (k + (8 - k)) with 8 by lia. change (2 ^ 8) with 256. lia.
Qed.

Lemma top5_of_channel (c : Z) :
  0 <= c < 256 -> Z.land (Z.shiftr c 3) 0x1F = Z.shiftr c 3.
Proof. intros Hc. exact (channel_top_bits c 3 Hc ltac:(lia)). Qed.

Lemma top6_of_channel (c : Z) :
  0 <= c < 256 -> Z.land (Z.shiftr c 2) 0x3F = Z.shiftr c 2.
Proof. intros Hc. exact (channel_top_bits c 2 Hc ltac:(lia)). Qed.

(** A value below [2^n] shares no bit with a multiple of [2^n]. *)
Lemma land_high_low (hi lo n : Z) :
  0 <= n -> 0 <= lo < 2 ^ n -> Z.land (hi * 2 ^ n) lo = 0.
Proof.
  intros Hn Hlo. apply Z.bits_inj'. intros i Hi.
  rewrite Z.land_spec, Z.bits_0.
  destruct (Z.lt_ge_cases i n) as [Hlt | Hge].
  - rewrite Z.mul_pow2_bits_low by assumption. reflexivity.
  - rewrite <- (Z.mod_small lo (2 ^ n)) by assumption.
    rewrite Z.mod_pow2_bits_high by lia. apply andb_false_r.
Qed.

(** OR-ing a field below [2^n] into a multiple of [2^n] adds it. *)
Lemma lor_high_low (hi lo n : Z) :
  0 <= n -> 0 <= lo < 2 ^ n -> Z.lor (hi * 2 ^ n) lo = hi * 2 ^ n + lo.
Proof.
  intros Hn Hlo.
  pose proof (land_high_low hi lo n Hn Hlo) as Hdisj.
  rewrite <- Z.lxor_lor by assumption.
  symmetry. now apply Z.add_nocarry_lxor.
Qed.

(** Three fields packed with shifts and ORs: top field at bit 11, middle
    field at bit [k] (5 or 6) and narrow enough to end below bit 11, low
    field below bit 5. *)
Lemma pack3_sum (top mid low k : Z) :
  5 <= k <= 11 ->
  0 <= mid < 2 ^ (11 - k) -> 0 <= low < 32 ->
  Z.lor (Z.lor (Z.shiftl top 11) (Z.shiftl mid k)) low
  = top * 2048 + mid * 2 ^ k + low.
Proof.
  intros Hk Hmid Hlow.
  rewrite !Z.shiftl_mul_pow2 by lia. change (2 ^ 11) with 2048.
  assert (Hpk : 0 < 2 ^ k) by (apply Z.pow_pos_nonneg; lia).
  assert (Hsplit : 2 ^ (11 - k) * 2 ^ k = 2048).
  { rewrite <- Z.pow_add_r by lia. replace (11 - k + k) with 11 by lia.
    reflexivity. }
  assert (H32 : 32 <= 2 ^ k).
  { change 32 with (2 ^ 5). apply Z.pow_le_mono_r; lia. }
  assert (Hmk : 0 <= mid * 2 ^ k < 2 ^ 11).
  { change (2 ^ 11) with 2048. nia. }
  change 2048 with (2 ^ 11) at 1.
  rewrite (lor_high_low top (mid * 2 ^ k) 11) by (lia || assumption).
  change (2 ^ 11) with 2048.
  replace (top * 2048 + mid * 2 ^ k)
    with ((top * 2 ^ (11 - k) + mid) * 2 ^ k) by (rewrite <- Hsplit; ring).
  rewrite lor_high_low by lia. reflexivity.
Qed.

(** On 16-bit values, subtracting from 0xFFFF flips the 16 bits. *)
Lemma sub_ffff_complement (p : Z) :
  0 <= p <= 0xFFFF -> 0xFFFF - p = Z.lxor p 0xFFFF.
Proof.
  intros Hp. change 0xFFFF with (Z.ones 16).
  assert (Hlog : Z.log2 p < 16).
  { destruct (Z.eq_dec p 0) as [-> | Hnz]; [reflexivity|].
    apply Z.log2_lt_pow2; [lia|]. change (2 ^ 16) with 65536.
    change (Z.ones 16) with 65535 in Hp. lia. }
  rewrite Z.sub_nocarry_ldiff.
  - apply Z.ldiff_ones_l_low; lia.
  - apply Z.ldiff_ones_r_low; lia.
Qed.

(** The low byte and the high byte of a 16-bit value rebuild it. *)
Lemma two_bytes_rebuild (v : Z) :
  0 <= v <= 0xFFFF ->
  Z.land v 0xFF + 256 * Z.land (Z.shiftr v 8) 0xFF = v.
Proof.
  intros Hv.
  change 0xFF with (2 ^ 8 - 1). rewrite !land_mask_mod by lia.
  rewrite Z.shiftr_div_pow2 by lia. change (2 ^ 8) with 256.
  rewrite (Z.mod_small (v / 256)).
  - pose proof (Z.div_mod v 256 ltac:(lia)). lia.
  - split.
    + apply Z.div_pos; lia.
    + apply Z.div_lt_upper_bound; lia.
Qed.

End BitFacts.

(* ===================================================================== *)
(** ** The pixel encoder on 8-bit channels *)
(* ===================================================================== *)

Section EightBit.

Variables r g b : Z.
Hypothesis Hr : 0 <= r < 256.
Hypothesis Hg : 0 <= g < 256.
Hypothesis Hb : 0 <= b < 256.

(** The four branches of [base_pixel], with the masks gone. *)
Lemma base_pixel_standard_rgb (mode : Z) :
  mode = 0 \/ mode = 4 ->
  base_pixel r g b mode
  = Some (Z.lor (Z.lor (Z.shiftl (Z.shiftr r 3) 11)
                       (Z.shiftl (Z.shiftr g 2) 5)) (Z.shiftr b 3)).
Proof.
  intros [-> | ->]; cbv beta iota delta [base_pixel Z.eqb orb];
    rewrite (top5_of_channel r Hr), (top6_of_channel g Hg),
            (top5_of_channel b Hb); reflexivity.
Qed.

Lemma base_pixel_standard_bgr (mode : Z) :
  mode = 1 \/ mode = 5 ->
  base_pixel r g b mode
  = Some (Z.lor (Z.lor (Z.shiftl (Z.shiftr b 3) 11)
                       (Z.shiftl (Z.shiftr g 2) 5)) (Z.shiftr r 3)).
Proof.
  intros [-> | ->]; cbv beta iota delta [base_pixel Z.eqb Pos.eqb orb];
    rewrite (top5_of_channel r Hr), (top6_of_channel g Hg),
            (top5_of_channel b Hb); reflexivity.
Qed.

Lemma base_pixel_compact_rgb (mode : Z) :
  mode = 2 \/ mode = 6 ->
  base_pixel r g b mode
  = Some (Z.lor (Z.lor (Z.shiftl (Z.shiftr r 3) 11)
                       (Z.shiftl (Z.shiftr g 3) 6)) (Z.shiftr b 3)).
Proof.
  intros [-> | ->]; cbv beta iota delta [base_pixel Z.eqb Pos.eqb orb];
    rewrite (top5_of_channel r Hr), (top5_of_channel g Hg),
            (top5_of_channel b Hb); reflexivity.
Qed.

Lemma base_pixel_compact_bgr (mode : Z) :
  mode = 3 \/ mode = 7 ->
  base_pixel r g b mode
  = Some (Z.lor (Z.lor (Z.shiftl (Z.shiftr b 3) 11)
                       (Z.shiftl (Z.shiftr g 3) 6)) (Z.shiftr r 3)).
Proof.
  intros [-> | ->]; cbv beta iota delta [base_pixel Z.eqb Pos.eqb orb];
    rewrite (top5_of_channel r Hr), (top5_of_channel g Hg),
            (top5_of_channel b Hb); reflexivity.
Qed.

End EightBit.

(** The top [8 - k] bits of a channel, as a number. *)
Lemma channel_shift_range (c k : Z) :
  0 <= c < 256 -> 0 <= k <= 8 -> 0 <= Z.shiftr c k < 2 ^ (8 - k).
Proof.
  intros Hc Hk. rewrite <- (channel_top_bits c k Hc Hk).
  apply land_mask_range. lia.
Qed.

(** Polarity: below mode 4 the base value is written, from mode 4 on its
    difference to 0xFFFF. *)
Lemma pixel_value_normal (r g b mode q : Z) :
  mode < 4 -> base_pixel r g b mode = Some q ->
  pixel_value r g b mode = Ok q.
Proof.
  intros Hm Hq. unfold pixel_value. rewrite Hq.
  destruct (Z.geb_spec mode 4) as [Hge | Hlt]; [lia | reflexivity].
Qed.

Lemma pixel_value_inverted (r g b mode q : Z) :
  4 <= mode -> base_pixel r g b mode = Some q ->
  pixel_value r g b mode = Ok (0xFFFF - q).
Proof.
  intros Hm Hq. unfold pixel_value. rewrite Hq.
  destruct (Z.geb_spec mode 4) as [Hge | Hlt]; [reflexivity | lia].
Qed.

(** Modes [m] and [m + 4] share the branch that assigns [pixel]. *)
Lemma base_pixel_plus4 (r g b m : Z) :
  0 <= m <= 3 -> base_pixel r g b (m + 4) = base_pixel r g b m.
Proof.
  intros Hm.
  assert (Hcases : m = 0 \/ m = 1 \/ m = 2 \/ m = 3) by lia.
  destruct Hcases as [-> | [-> | [-> | ->]]]; reflexivity.
Qed.

(** The written value is defined for every mode 0..7, whatever the
    channel values. *)
Lemma base_pixel_defined (r g b mode : Z) :
  0 <= mode <= 7 -> exists q, base_pixel r g b mode = Some q.
Proof.
  intros Hm.
  assert (Hcases : mode = 0 \/ mode = 1 \/ mode = 2 \/ mode = 3 \/
                   mode = 4 \/ mode = 5 \/ mode = 6 \/ mode = 7) by lia.
  destruct Hcases as [-> | [-> | [-> | [-> | [-> | [-> | [-> | ->]]]]]]];
    eexists; reflexivity.
Qed.

Lemma pixel_value_defined (r g b mode : Z) :
  0 <= mode <= 7 -> exists v, pixel_value r g b mode = Ok v.
Proof.
  intros Hm. destruct (base_pixel_defined r g b mode Hm) as [q Hq].
  destruct (Z.lt_ge_cases mode 4) as [Hlt | Hge].
  - exists q. now apply pixel_value_normal.
  - exists (0xFFFF - q). now apply pixel_value_inverted.
Qed.

(** In every mode the base value is the sum of its three fields. *)
Lemma base_pixel_fields (r g b mode : Z) :
  0 <= r < 256 -> 0 <= g < 256 -> 0 <= b < 256 -> 0 <= mode <= 7 ->
  base_pixel r g b mode
  = Some (top_field r g b mode + mid_field r g b mode + low_field r g b mode).
Proof.
  intros Hr Hg Hb Hm.
  pose proof (channel_shift_range r 3 Hr ltac:(lia)) as Hr5.
  pose proof (channel_shift_range g 3 Hg ltac:(lia)) as Hg5.
  pose proof (channel_shift_range g 2 Hg ltac:(lia)) as Hg6.
  pose proof (channel_shift_range b 3 Hb ltac:(lia)) as Hb5.
  change (2 ^ (8 - 3)) with 32 in Hr5, Hg5, Hb5.
  change (2 ^ (8 - 2)) with 64 in Hg6.
  assert (Hcases : mode = 0 \/ mode = 1 \/ mode = 2 \/ mode = 3 \/
                   mode = 4 \/ mode = 5 \/ mode = 6 \/ mode = 7) by lia.
  destruct Hcases as [-> | [-> | [-> | [-> | [-> | [-> | [-> | ->]]]]]]];
    unfold top_field, mid_field, low_field;
    cbv beta iota delta [bgr compact Z.testbit Pos.testbit Z.odd];
    [ rewrite (base_pixel_standard_rgb r g b Hr Hg Hb) by lia
    | rewrite (base_pixel_standard_bgr r g b Hr Hg Hb) by lia
    | rewrite (base_pixel_compact_rgb r g b Hr Hg Hb) by lia
    | rewrite (base_pixel_compact_bgr r g b Hr Hg Hb) by lia
    | rewrite (base_pixel_standard_rgb r g b Hr Hg Hb) by lia
    | rewrite (base_pixel_standard_bgr r g b Hr Hg Hb) by lia
    | rewrite (base_pixel_compact_rgb r g b Hr Hg Hb) by lia
    | rewrite (base_pixel_compact_bgr r g b Hr Hg Hb) by lia ];
    f_equal;
    rewrite pack3_sum
      by (try change (2 ^ (11 - 5)) with 64;
          try change (2 ^ (11 - 6)) with 32; lia);
    rewrite !Z.shiftl_mul_pow2 by lia; reflexivity.
Qed.

(** The three fields sit in disjoint bit ranges below bit 16. *)
Lemma fields_disjoint (r g b mode : Z) :
  0 <= r < 256 -> 0 <= g < 256 -> 0 <= b < 256 ->
  Z.land (top_field r g b mode) (mid_field r g b mode) = 0 /\
  Z.land (top_field r g b mode) (low_field r g b mode) = 0 /\
  Z.land (mid_field r g b mode) (low_field r g b mode) = 0 /\
  0 <= top_field r g b mode + mid_field r g b mode + low_field r g b mode
    <= 0xFFFF.
Proof.
  intros Hr Hg Hb.
  pose proof (channel_shift_range r 3 Hr ltac:(lia)) as Hr5.
  pose proof (channel_shift_range g 3 Hg ltac:(lia)) as Hg5.
  pose proof (channel_shift_range g 2 Hg ltac:(lia)) as Hg6.
  pose proof (channel_shift_range b 3 Hb ltac:(lia)) as Hb5.
  change (2 ^ (8 - 3)) with 32 in Hr5, Hg5, Hb5.
  change (2 ^ (8 - 2)) with 64 in Hg6.
  unfold top_field, mid_field, low_field.
  rewrite !Z.shiftl_mul_pow2 by lia.
  assert (Hlow : 0 <= Z.shiftr (if bgr mode then r else b) 3 < 32)
    by (destruct (bgr mode); assumption).
  assert (Htop : 0 <= Z.shiftr (if bgr mode then b else r) 3 < 32)
    by (destruct (bgr mode); assumption).
  destruct (compact mode).
  - repeat split.
    + apply land_high_low; [lia|]. change (2 ^ 6) with 64.
      change (2 ^ 11) with 2048. lia.
    + apply land_high_low; [lia|]. change (2 ^ 11) with 2048. lia.
    + apply land_high_low; [lia|]. change (2 ^ 6) with 64. lia.
    + change (2 ^ 6) with 64. change (2 ^ 11) with 2048. lia.
    + change (2 ^ 6) with 64. change (2 ^ 11) with 2048. lia.
  - repeat split.
    + apply land_high_low; [lia|]. change (2 ^ 5) with 32.
      change (2 ^ 11) with 2048. lia.
    + apply land_high_low; [lia|]. change (2 ^ 11) with 2048. lia.
    + apply land_high_low; [lia|]. change (2 ^ 5) with 32. lia.
    + change (2 ^ 5) with 32. change (2 ^ 11) with 2048. lia.
    + change (2 ^ 5) with 32. change (2 ^ 11) with 2048. lia.
Qed.

(** The argument of [bytes] is always a pair of bytes. *)
Lemma pixel_bytes_ok (p : Z) : pixel_bytes p = Ok (le16 p).
Proof.
  unfold pixel_bytes, bytes, le16, forallb.
  pose proof (land_mask_range p 8 ltac:(lia)) as Hlo.
  pose proof (land_mask_range (Z.shiftr p 8) 8 ltac:(lia)) as Hhi.
  change (2 ^ 8 - 1) with 0xFF in Hlo, Hhi. change (2 ^ 8) with 256 in Hlo, Hhi.
  destruct Hlo as [Hlo0 Hlo1]. destruct Hhi as [Hhi0 Hhi1].
  apply Z.leb_le in Hlo0, Hhi0. apply Z.ltb_lt in Hlo1, Hhi1.
  rewrite Hlo0, Hlo1, Hhi0, Hhi1. reflexivity.
Qed.

(** A value packed from a top field, a middle field at bit [k] that ends
    below bit 11 and a 5-bit low field gives its fields back. *)
Lemma unpack3 (top mid low k : Z) :
  5 <= k <= 11 ->
  0 <= mid < 2 ^ (11 - k) -> 0 <= low < 32 ->
  let p := Z.lor (Z.lor (Z.shiftl top 11) (Z.shiftl mid k)) low in
  Z.shiftr p 11 = top /\
  Z.land (Z.shiftr p k) (2 ^ (11 - k) - 1) = mid /\
  Z.land p 0x1F = low.
Proof.
  intros Hk Hmid Hlow p. subst p.
  rewrite pack3_sum by assumption.
  assert (Hpk : 0 < 2 ^ k) by (apply Z.pow_pos_nonneg; lia).
  assert (Hpw : 0 < 2 ^ (11 - k)) by (apply Z.pow_pos_nonneg; lia).
  assert (Hsplit : 2 ^ (11 - k) * 2 ^ k = 2048).
  { rewrite <- Z.pow_add_r by lia. replace (11 - k + k) with 11 by lia.
    reflexivity. }
  assert (H32 : 32 <= 2 ^ k).
  { change 32 with (2 ^ 5). apply Z.pow_le_mono_r; lia. }
  assert (Hk5 : 2 ^ k = 2 ^ (k - 5) * 32).
  { change 32 with (2 ^ 5). rewrite <- Z.pow_add_r by lia.
    f_equal. lia. }
  assert (Hpk5 : 0 < 2 ^ (k - 5)) by (apply Z.pow_pos_nonneg; lia).
  assert (Hmk : 0 <= mid * 2 ^ k <= 2048 - 2 ^ k).
  { split; [apply Z.mul_nonneg_nonneg; lia|].
    rewrite <- Hsplit.
    replace (2 ^ (11 - k) * 2 ^ k - 2 ^ k)
      with ((2 ^ (11 - k) - 1) * 2 ^ k) by ring.
    apply Z.mul_le_mono_nonneg_r; lia. }
  split; [| split].
  - rewrite Z.shiftr_div_pow2 by lia. change (2 ^ 11) with 2048.
    symmetry. apply (Z.div_unique_pos _ _ _ (mid * 2 ^ k + low)); lia.
  - rewrite land_mask_mod by lia. rewrite Z.shiftr_div_pow2 by lia.
    replace ((top * 2048 + mid * 2 ^ k + low) / 2 ^ k)
      with (top * 2 ^ (11 - k) + mid).
    + symmetry. apply (Z.mod_unique_pos _ _ top); lia.
    + apply (Z.div_unique_pos _ _ _ low); [lia|].
      rewrite <- Hsplit. ring.
  - change 0x1F with (2 ^ 5 - 1). rewrite land_mask_mod by lia.
    change (2 ^ 5) with 32. symmetry.
    apply (Z.mod_unique_pos _ _ (top * 64 + mid * 2 ^ (k - 5))); [lia|].
    rewrite Hk5. ring.
Qed.

(** With the middle field at bit 6, bit 5 of the packed value is clear. *)
Lemma compact_bit5_clear (top mid low : Z) :
  0 <= mid < 32 -> 0 <= low < 32 ->
  Z.testbit (Z.lor (Z.lor (Z.shiftl top 11) (Z.shiftl mid 6)) low) 5 = false.
Proof.
  intros Hmid Hlow.
  rewrite pack3_sum by (try change (2 ^ (11 - 6)) with 32; lia).
  rewrite Z.testbit_odd, Z.shiftr_div_pow2 by lia.
  change (2 ^ 6) with 64. change (2 ^ 5) with 32.
  replace ((top * 2048 + mid * 64 + low) / 32) with (2 * (top * 32 + mid)).
  - rewrite Z.odd_mul. reflexivity.
  - apply (Z.div_unique_pos _ _ _ low); lia.
Qed.

(* ===================================================================== *)
(** ** Properties of the pixel encoder *)
(* ===================================================================== *)

(** C1. For every 8-bit triple (r, g, b), mode 0 writes
    ((r>>3)<<11) | ((g>>2)<<5) | (b>>3) and mode 1 the same value with the
    red and blue fields swapped.  The fields do not disturb each other:
    bits 11 and up of the mode-0 value are the top 5 bits of red, bits
    5..10 the top 6 bits of green, bits 0..4 the top 5 bits of blue. *)
Theorem mode0_mode1_packing (r g b : Z) :
  0 <= r < 256 -> 0 <= g < 256 -> 0 <= b < 256 ->
  let rgb565 :=
    Z.lor (Z.lor (Z.shiftl (Z.shiftr r 3) 11) (Z.shiftl (Z.shiftr g 2) 5))
          (Z.shiftr b 3) in
  let bgr565 :=
    Z.lor (Z.lor (Z.shiftl (Z.shiftr b 3) 11) (Z.shiftl (Z.shiftr g 2) 5))
          (Z.shiftr r 3) in
  pixel_value r g b 0 = Ok rgb565 /\
  pixel_value r g b 1 = Ok bgr565 /\
  Z.shiftr rgb565 11 = Z.shiftr r 3 /\
  Z.land (Z.shiftr rgb565 5) 0x3F = Z.shiftr g 2 /\
  Z.land rgb565 0x1F = Z.shiftr b 3.
Proof.
  intros Hr Hg Hb rgb565 bgr565.
  pose proof (channel_shift_range g 2 Hg ltac:(lia)) as Hg6.
  pose proof (channel_shift_range b 3 Hb ltac:(lia)) as Hb5.
  change (2 ^ (8 - 3)) with 32 in Hb5.
  change (2 ^ (8 - 2)) with (2 ^ (11 - 5)) in Hg6.
  split; [| split].
  - apply pixel_value_normal; [lia|].
    apply base_pixel_standard_rgb; auto.
  - apply pixel_value_normal; [lia|].
    apply base_pixel_standard_bgr; auto.
  - exact (unpack3 (Z.shiftr r 3) (Z.shiftr g 2) (Z.shiftr b 3) 5
             ltac:(lia) Hg6 Hb5).
Qed.

Lemma mode0_mode1_packing_witness :
  (0 <= 200 < 256 /\ 0 <= 100 < 256 /\ 0 <= 50 < 256) /\
  pixel_value 200 100 50 0 = Ok 52006 /\
  pixel_value 200 100 50 1 = Ok 13113.
Proof.
  pose proof (mode0_mode1_packing 200 100 50
                ltac:(lia) ltac:(lia) ltac:(lia)) as H.
  split; [lia|].
  split; [exact (proj1 H) | exact (proj1 (proj2 H))].
Defined.

(** C3. For every 8-bit triple (r, g, b), the compact modes keep 5 bits of
    green (g>>3) and place them at bit 6: mode 2 writes
    ((r>>3)<<11) | ((g>>3)<<6) | (b>>3) and mode 3 writes
    ((b>>3)<<11) | ((g>>3)<<6) | (r>>3).  Bits 6..10 of either value are
    g>>3, and bit 5 is never set. *)
Theorem compact_modes_packing (r g b : Z) :
  0 <= r < 256 -> 0 <= g < 256 -> 0 <= b < 256 ->
  let rgb556 :=
    Z.lor (Z.lor (Z.shiftl (Z.shiftr r 3) 11) (Z.shiftl (Z.shiftr g 3) 6))
          (Z.shiftr b 3) in
  let bgr556 :=
    Z.lor (Z.lor (Z.shiftl (Z.shiftr b 3) 11) (Z.shiftl (Z.shiftr g 3) 6))
          (Z.shiftr r 3) in
  pixel_value r g b 2 = Ok rgb556 /\
  pixel_value r g b 3 = Ok bgr556 /\
  Z.land (Z.shiftr rgb556 6) 0x1F = Z.shiftr g 3 /\
  Z.land (Z.shiftr bgr556 6) 0x1F = Z.shiftr g 3 /\
  Z.testbit rgb556 5 = false /\
  Z.testbit bgr556 5 = false.
Proof.
  intros Hr Hg Hb rgb556 bgr556.
  pose proof (channel_shift_range r 3 Hr ltac:(lia)) as Hr5.
  pose proof (channel_shift_range g 3 Hg ltac:(lia)) as Hg5.
  pose proof (channel_shift_range b 3 Hb ltac:(lia)) as Hb5.
  change (2 ^ (8 - 3)) with 32 in Hr5, Hb5, Hg5.
  assert (Hg5' : 0 <= Z.shiftr g 3 < 2 ^ (11 - 6)) by exact Hg5.
  pose proof (unpack3 (Z.shiftr r 3) (Z.shiftr g 3) (Z.shiftr b 3) 6
                ltac:(lia) Hg5' Hb5) as (_ & Hmid1 & _).
  pose proof (unpack3 (Z.shiftr b 3) (Z.shiftr g 3) (Z.shiftr r 3) 6
                ltac:(lia) Hg5' Hr5) as (_ & Hmid2 & _).
  repeat split.
  - apply pixel_value_normal; [lia|].
    apply base_pixel_compact_rgb; auto.
  - apply pixel_value_normal; [lia|].
    apply base_pixel_compact_bgr; auto.
  - exact Hmid1.
  - exact Hmid2.
  - now apply compact_bit5_clear.
  - now apply compact_bit5_clear.
Qed.

Lemma compact_modes_packing_witness :
  (0 <= 200 < 256 /\ 0 <= 100 < 256 /\ 0 <= 50 < 256) /\
  pixel_value 200 100 50 2 = Ok 51974 /\
  pixel_value 200 100 50 3 = Ok 13081.
Proof.
  pose proof (compact_modes_packing 200 100 50
                ltac:(lia) ltac:(lia) ltac:(lia)) as H.
  split; [lia|].
  split; [exact (proj1 H) | exact (proj1 (proj2 H))].
Defined.

(** C2. For every 8-bit triple (r, g, b) and every mode m in 0..3, mode
    m + 4 writes 0xFFFF minus the value that mode m writes, and that
    difference is the value of mode m with its 16 bits flipped. *)
Theorem inverted_mode_is_complement (r g b m : Z) :
  0 <= r < 256 -> 0 <= g < 256 -> 0 <= b < 256 -> 0 <= m <= 3 ->
  exists p,
    pixel_value r g b m = Ok p /\
    pixel_value r g b (m + 4) = Ok (0xFFFF - p) /\
    0xFFFF - p = Z.lxor p 0xFFFF.
Proof.
  intros Hr Hg Hb Hm.
  pose proof (base_pixel_fields r g b m Hr Hg Hb ltac:(lia)) as Hbase.
  pose proof (fields_disjoint r g b m Hr Hg Hb) as (_ & _ & _ & Hrange).
  set (p := top_field r g b m + mid_field r g b m + low_field r g b m) in *.
  exists p. split; [| split].
  - apply pixel_value_normal; [lia | exact Hbase].
  - apply pixel_value_inverted; [lia|].
    rewrite base_pixel_plus4 by assumption. exact Hbase.
  - now apply sub_ffff_complement.
Qed.

Lemma inverted_mode_is_complement_witness :
  (0 <= 12 < 256 /\ 0 <= 200 < 256 /\ 0 <= 77 < 256 /\ 0 <= 2 <= 3) /\
  exists p,
    pixel_value 12 200 77 2 = Ok p /\
    pixel_value 12 200 77 (2 + 4) = Ok (0xFFFF - p) /\
    0xFFFF - p = Z.lxor p 0xFFFF.
Proof.
  split; [lia|].
  apply (inverted_mode_is_complement 12 200 77 2); lia.
Defined.

(** C10. For every 8-bit triple (r, g, b) and every mode 0..7: the three
    shifted fields share no bit, so the value assigned to [pixel] is their
    sum and lies in 0..0xFFFF; 0xFFFF minus it is non-negative and is its
    16-bit complement; the written value lies in 0..0xFFFF as well, and
    the two bytes written for it rebuild it (low + 256 * high). *)
Theorem pixel_fits_16_bits (r g b mode : Z) :
  0 <= r < 256 -> 0 <= g < 256 -> 0 <= b < 256 -> 0 <= mode <= 7 ->
  let top := top_field r g b mode in
  let mid := mid_field r g b mode in
  let low := low_field r g b mode in
  Z.land top mid = 0 /\ Z.land top low = 0 /\ Z.land mid low = 0 /\
  exists q p lo hi,
    base_pixel r g b mode = Some q /\
    q = top + mid + low /\
    0 <= q <= 0xFFFF /\
    0 <= 0xFFFF - q /\
    0xFFFF - q = Z.lxor q 0xFFFF /\
    pixel_value r g b mode = Ok p /\
    0 <= p <= 0xFFFF /\
    pixel_bytes p = Ok [lo; hi] /\
    lo + 256 * hi = p.
Proof.
  intros Hr Hg Hb Hm top mid low.
  pose proof (base_pixel_fields r g b mode Hr Hg Hb Hm) as Hbase.
  pose proof (fields_disjoint r g b mode Hr Hg Hb) as (H1 & H2 & H3 & Hq).
  fold top mid low in Hbase, H1, H2, H3, Hq.
  repeat (split; [assumption|]).
  assert (Hp : exists p, pixel_value r g b mode = Ok p /\ 0 <= p <= 0xFFFF).
  { destruct (Z.lt_ge_cases mode 4) as [Hlt | Hge].
    - exists (top + mid + low). split; [| exact Hq].
      now apply pixel_value_normal.
    - exists (0xFFFF - (top + mid + low)). split; [| lia].
      now apply pixel_value_inverted. }
  destruct Hp as (p & Hpv & Hprange).
  exists (top + mid + low), p,
    (Z.land p 0xFF), (Z.land (Z.shiftr p 8) 0xFF).
  repeat split; try assumption; try lia.
  - now apply sub_ffff_complement.
  - apply pixel_bytes_ok.
  - now apply two_bytes_rebuild.
Qed.

Lemma pixel_fits_16_bits_witness :
  (0 <= 255 < 256 /\ 0 <= 255 < 256 /\ 0 <= 255 < 256 /\ 0 <= 7 <= 7) /\
  exists q p lo hi,
    base_pixel 255 255 255 7 = Some q /\
    q = top_field 255 255 255 7 + mid_field 255 255 255 7
        + low_field 255 255 255 7 /\
    0 <= q <= 0xFFFF /\
    0 <= 0xFFFF - q /\
    0xFFFF - q = Z.lxor q 0xFFFF /\
    pixel_value 255 255 255 7 = Ok p /\
    0 <= p <= 0xFFFF /\
    pixel_bytes p = Ok [lo; hi] /\
    lo + 256 * hi = p.
Proof.
  split; [lia|].
  apply (pixel_fits_16_bits 255 255 255 7); lia.
Defined.

(* ===================================================================== *)
(** ** Loops *)
(* ===================================================================== *)

Section Loops.

Context {A S : Type}.

(** A loop whose body keeps an invariant completes and keeps it; the
    invariant may mention the part of the list already visited. *)
Lemma for_each_prefix_invariant (P : list A -> S -> Prop) (xs : list A)
      (body : A -> S -> result S) :
  (forall done x s, (exists rest, xs = done ++ x :: rest) -> P done s ->
                    exists s', body x s = Ok s' /\ P (done ++ [x]) s') ->
  forall s, P [] s -> exists s', for_each xs body s = Ok s' /\ P xs s'.
Proof.
  intros Hbody.
  assert (Hgen : forall todo done s, xs = done ++ todo -> P done s ->
            exists s', for_each todo body s = Ok s' /\ P xs s').
  { induction todo as [| x todo IH]; intros done s Hxs Hs.
    - rewrite app_nil_r in Hxs. subst done. exists s. split; auto.
    - destruct (Hbody done x s (ex_intro _ todo Hxs) Hs) as (s1 & Hx & Hs1).
      destruct (IH (done ++ [x]) s1) as (s2 & Htodo & Hs2).
      + rewrite <- app_assoc. exact Hxs.
      + exact Hs1.
      + exists s2. split; [| assumption].
        cbn [for_each]. rewrite Hx. exact Htodo. }
  intros s Hs. exact (Hgen xs [] s eq_refl Hs).
Qed.

End Loops.

(** A loop that appends to a file what each step emits. *)
Lemma for_each_append {A : Type} (xs : list A)
      (body : A -> list Z -> result (list Z)) (out : A -> list Z) :
  (forall x f, In x xs -> body x f = Ok (f ++ out x)) ->
  forall f, for_each xs body f = Ok (f ++ flat_map out xs).
Proof.
  induction xs as [| x xs IH]; intros Hbody f.
  - cbn. now rewrite app_nil_r.
  - cbn [for_each flat_map]. rewrite (Hbody x f (or_introl eq_refl)).
    cbn [bind]. rewrite IH by (intros y f' Hy; apply Hbody; now right).
    now rewrite app_assoc.
Qed.

Lemma in_range (n i : Z) : In i (range n) <-> 0 <= i < n.
Proof.
  unfold range. rewrite in_map_iff. split.
  - intros (k & <- & Hk). apply in_seq in Hk. lia.
  - intros Hi. exists (Z.to_nat i). split; [lia|].
    apply in_seq. lia.
Qed.

Lemma length_range (n : Z) : List.length (range n) = Z.to_nat n.
Proof. unfold range. now rewrite length_map, length_seq. Qed.

Lemma nth_error_range (n : Z) (i : nat) :
  (i < Z.to_nat n)%nat -> nth_error (range n) i = Some (Z.of_nat i).
Proof.
  intros Hi. unfold range. rewrite nth_error_map.
  rewrite nth_error_seq.
  destruct (Nat.ltb_spec i (Z.to_nat n)); [reflexivity | lia].
Qed.

(** Rows of equal length laid end to end: element [j] of row [i] sits at
    index [i * k + j]. *)
Lemma nth_error_flat_map_rows {A B : Type} (f : A -> list B) (k : nat)
      (l : list A) :
  (forall a, In a l -> List.length (f a) = k) ->
  forall (i j : nat) (a : A),
    nth_error l i = Some a -> (j < k)%nat ->
    nth_error (flat_map f l) (i * k + j) = nth_error (f a) j.
Proof.
  induction l as [| a0 l IH]; intros Hlen i j a Hi Hj.
  - destruct i; discriminate.
  - cbn [flat_map]. destruct i as [| i].
    + cbn in Hi. injection Hi as ->. cbn [Nat.mul Nat.add].
      apply nth_error_app1. rewrite (Hlen a (or_introl eq_refl)). exact Hj.
    + cbn in Hi. rewrite nth_error_app2
        by (rewrite (Hlen a0 (or_introl eq_refl)); cbn; lia).
      rewrite (Hlen a0 (or_introl eq_refl)).
      replace (S i * k + j - k)%nat with (i * k + j)%nat by (cbn; lia).
      apply IH; auto. intros a' Ha'. apply Hlen. now right.
Qed.

(** The scan visits (x, y) at step [y * width + x]. *)
Lemma scan_index (width height x y : Z) :
  0 <= x < width -> 0 <= y < height ->
  nth_error (scan width height) (Z.to_nat (y * width + x)) = Some (x, y).
Proof.
  intros Hx Hy. unfold scan.
  replace (Z.to_nat (y * width + x))
    with (Z.to_nat y * Z.to_nat width + Z.to_nat x)%nat by nia.
  rewrite (nth_error_flat_map_rows _ (Z.to_nat width) _) with (a := y).
  - rewrite nth_error_map, nth_error_range by lia.
    cbn. f_equal. f_equal. lia.
  - intros a _. now rewrite length_map, length_range.
  - rewrite nth_error_range by lia. f_equal. lia.
  - lia.
Qed.

Lemma length_scan (width height : Z) :
  0 <= width -> 0 <= height ->
  Z.of_nat (List.length (scan width height)) = width * height.
Proof.
  intros Hw Hh. unfold scan.
  assert (Hrows : forall l : list Z,
            List.length (flat_map (fun y => map (fun x => (x, y)) (range width)) l)
            = (List.length l * Z.to_nat width)%nat).
  { induction l as [| y l IH]; [reflexivity|].
    cbn [flat_map]. rewrite length_app, IH, length_map, length_range.
    cbn. lia. }
  rewrite Hrows, length_range. nia.
Qed.

(** Two bytes per word. *)
Lemma length_flat_map_le16 (vs : list Z) :
  List.length (flat_map le16 vs) = (2 * List.length vs)%nat.
Proof.
  induction vs as [| v vs IH]; [reflexivity|].
  cbn [flat_map le16 app List.length]. rewrite IH. lia.
Qed.

Lemma nth_error_flat_map_le16 (vs : list Z) (k : nat) (v : Z) :
  nth_error vs k = Some v ->
  nth_error (flat_map le16 vs) (2 * k) = Some (Z.land v 0xFF) /\
  nth_error (flat_map le16 vs) (2 * k + 1)
  = Some (Z.land (Z.shiftr v 8) 0xFF).
Proof.
  revert k. induction vs as [| v0 vs IH]; intros k Hk.
  - destruct k; discriminate.
  - destruct k as [| k].
    + cbn in Hk. injection Hk as ->. split; reflexivity.
    + cbn in Hk. destruct (IH k Hk) as [Hlo Hhi].
      replace (2 * S k)%nat with (S (S (2 * k))) by lia.
      replace (S (S (2 * k)) + 1)%nat with (S (S (2 * k + 1))) by lia.
      split; [exact Hlo | exact Hhi].
Qed.

(** Visiting a grid row by row is visiting its list of coordinates. *)
Lemma flat_map_of_map {A B C : Type} (g : B -> list C) (k : A -> B)
      (l : list A) :
  flat_map g (map k l) = flat_map (fun a => g (k a)) l.
Proof.
  induction l as [| a l IH]; [reflexivity|].
  cbn [map flat_map]. now rewrite IH.
Qed.

Lemma flat_map_grid {B : Type} (g : Z * Z -> list B) (xs ys : list Z) :
  flat_map (fun y => flat_map (fun x => g (x, y)) xs) ys
  = flat_map g (flat_map (fun y => map (fun x => (x, y)) xs) ys).
Proof.
  induction ys as [| y ys IH]; [reflexivity|].
  cbn [flat_map]. rewrite flat_map_app, <- IH. f_equal.
  now rewrite flat_map_of_map.
Qed.

(** One step of the inner loop of [write_pixels]. *)
Lemma write_pixel_step (img : Bitmap rgb) (mode x y : Z) (f : list Z) :
  0 <= mode <= 7 -> in_bounds img x y = true ->
  ('(r, g, b) <- getpixel img x y ;;
   pixel <- pixel_value r g b mode ;;
   bs <- pixel_bytes pixel ;;
   Ok (f ++ bs))
  = Ok (f ++ le16 (word_of (pixel_word img mode (x, y)))).
Proof.
  intros Hm Hin. unfold getpixel, pixel_word. rewrite Hin. cbn [bind fst snd].
  destruct (bm_px img x y) as [[r g] b].
  destruct (pixel_value_defined r g b mode Hm) as [v Hv].
  rewrite Hv. cbn [bind word_of]. rewrite pixel_bytes_ok. reflexivity.
Qed.

(** The two loops of [write_pixels] append the words of the scan. *)
Lemma write_pixels_scan (img : Bitmap rgb) (width height mode : Z)
      (f : list Z) :
  bm_size img = (width, height) -> 0 <= mode <= 7 ->
  write_pixels img width height mode f
  = Ok (f ++ flat_map le16
               (map (fun xy => word_of (pixel_word img mode xy))
                    (scan width height))).
Proof.
  intros Hsize Hm. unfold write_pixels.
  rewrite (for_each_append _ _
             (fun y => flat_map
                         (fun x => le16 (word_of (pixel_word img mode (x, y))))
                         (range width))).
  - f_equal. f_equal. unfold scan.
    rewrite flat_map_of_map.
    apply (flat_map_grid
             (fun xy => le16 (word_of (pixel_word img mode xy)))).
  - intros y f' Hy. apply for_each_append.
    intros x f'' Hx. apply write_pixel_step; [assumption|].
    apply in_range in Hx, Hy.
    unfold in_bounds. rewrite Hsize. cbn [fst snd].
    rewrite !andb_true_iff, !Z.leb_le, !Z.ltb_lt. lia.
Qed.

(** In a mode 0..7 every pixel of the scan has a word. *)
Lemma scan_words_defined (img : Bitmap rgb) (mode : Z) (l : list (Z * Z)) :
  0 <= mode <= 7 ->
  map Ok (map (fun xy => word_of (pixel_word img mode xy)) l)
  = map (pixel_word img mode) l.
Proof.
  intros Hm. rewrite map_map. apply map_ext. intros [x y].
  unfold pixel_word. cbn [fst snd]. destruct (bm_px img x y) as [[r g] b].
  destruct (pixel_value_defined r g b mode Hm) as [v Hv].
  rewrite Hv. reflexivity.
Qed.

(* ===================================================================== *)
(** ** Preparation and files *)
(* ===================================================================== *)

Lemma lookup_update {A : Type} (k : string) (v : A) (l : list (string * A)) :
  lookup k (update k v l) = Some v.
Proof.
  induction l as [| [k' v'] l IH]; cbn [update lookup].
  - now rewrite String.eqb_refl.
  - destruct (String.eqb k k') eqn:E; cbn [lookup].
    + now rewrite String.eqb_refl.
    + now rewrite E.
Qed.

(** Flattening keeps the size of the picture. *)
Lemma to_rgb_size (img : Image) : bm_size (to_rgb img) = size img.
Proof. destruct img; reflexivity. Qed.

Section Prepared.

Context {codec : Codec}.

Lemma resize_size (b : Bitmap rgb) (width height : Z) :
  honours_size -> 0 < width -> 0 < height ->
  exists b', resize b width height = Ok b' /\ bm_size b' = (width, height).
Proof.
  intros Hc Hw Hh. unfold resize.
  destruct ((fst (bm_size b) =? width) && (snd (bm_size b) =? height)) eqn:E.
  - exists b. split; [reflexivity|].
    apply andb_true_iff in E. destruct E as [E1 E2].
    apply Z.eqb_eq in E1, E2. destruct (bm_size b). cbn in *. congruence.
  - destruct (Z.ltb_spec width 1); [lia|].
    destruct (Z.ltb_spec height 1); [lia|].
    cbn [orb]. exists (lanczos b width height). split; [reflexivity|].
    now apply Hc.
Qed.

Lemma prepare_size (img : Image) (width height : Z) :
  honours_size -> 0 < width -> 0 < height ->
  exists b', prepare img width height = Ok b' /\ bm_size b' = (width, height).
Proof. intros. unfold prepare. now apply resize_size. Qed.

(** A picture that already has the requested size goes through
    [prepare] flattened and otherwise untouched. *)
Lemma prepare_same_size (img : Image) (width height : Z) :
  size img = (width, height) ->
  prepare img width height = Ok (to_rgb img).
Proof.
  intros Hsize. unfold prepare, resize.
  rewrite to_rgb_size, Hsize. cbn [fst snd].
  now rewrite !Z.eqb_refl.
Qed.

(** The bytes of a picture are the words of the prepared picture in scan
    order. *)
Lemma raw_bytes_scan (img : Image) (width height mode : Z) :
  honours_size -> 0 < width -> 0 < height -> 0 <= mode <= 7 ->
  exists b',
    prepare img width height = Ok b' /\
    raw_bytes img width height mode
    = Ok (flat_map le16 (map (fun xy => word_of (pixel_word b' mode xy))
                             (scan width height))).
Proof.
  intros Hc Hw Hh Hm.
  destruct (prepare_size img width height Hc Hw Hh) as (b' & Hprep & Hsize).
  exists b'. split; [assumption|].
  unfold raw_bytes. rewrite Hprep. cbn [bind].
  now rewrite write_pixels_scan.
Qed.

(** [convert_to_raw] stores the bytes of the decoded picture. *)
Lemma convert_to_raw_stores (w : World) (image_path output_path : string)
      (img : Image) (width height mode : Z) (data : list Z) :
  image_open w image_path = Ok img -> writable w = true ->
  raw_bytes img width height mode = Ok data ->
  exists w',
    convert_to_raw w image_path output_path width height mode = Ok w' /\
    lookup output_path (assets w') = Some (Raw data) /\
    imgs w' = imgs w.
Proof.
  intros Hopen Hwr Hraw. unfold convert_to_raw, raw_bytes in *.
  rewrite Hopen. cbn [bind].
  destruct (prepare img width height) as [b' | e]; [| discriminate Hraw].
  cbn [bind] in *. unfold open_wb. rewrite Hwr. cbn [bind]. rewrite Hraw.
  cbn [bind]. eexists. split; [reflexivity|]. split.
  - unfold store. cbn [assets set_assets]. apply lookup_update.
  - reflexivity.
Qed.

End Prepared.

(* ===================================================================== *)
(** ** Properties of the RAW buffer *)
(* ===================================================================== *)



(** C5. On a prepared picture of the target size and in every mode 0..7,
    the loops write, for each pixel in row-major scan order (rows from
    the top, each row from the left), the word v computed for that pixel
    as the two bytes v & 0xFF then (v >> 8) & 0xFF: the pixel (x, y) owns
    the bytes at offsets 2 * (y * width + x) and 2 * (y * width + x) + 1. *)
Theorem little_endian_row_major (img : Bitmap rgb) (width height mode : Z) :
  bm_size img = (width, height) -> 0 <= mode <= 7 ->
  exists out vs,
    write_pixels img width height mode [] = Ok out /\
    map Ok vs = map (pixel_word img mode) (scan width height) /\
    out = flat_map (fun v => [Z.land v 0xFF; Z.land (Z.shiftr v 8) 0xFF]) vs /\
    forall x y, 0 <= x < width -> 0 <= y < height ->
      exists v,
        nth_error (scan width height) (Z.to_nat (y * width + x))
          = Some (x, y) /\
        pixel_word img mode (x, y) = Ok v /\
        nth_error out (2 * Z.to_nat (y * width + x)) = Some (Z.land v 0xFF) /\
        nth_error out (2 * Z.to_nat (y * width + x) + 1)
          = Some (Z.land (Z.shiftr v 8) 0xFF).
Proof.
  intros Hsize Hm.
  set (vs := map (fun xy => word_of (pixel_word img mode xy))
                 (scan width height)).
  exists (flat_map le16 vs), vs.
  assert (Hvs : map Ok vs = map (pixel_word img mode) (scan width height))
    by (apply scan_words_defined; assumption).
  split; [| split; [| split]].
  - now rewrite (write_pixels_scan img width height mode [] Hsize Hm).
  - exact Hvs.
  - reflexivity.
  - intros x y Hx Hy.
    pose proof (scan_index width height x y Hx Hy) as Hidx.
    exists (word_of (pixel_word img mode (x, y))).
    assert (Hnth : nth_error vs (Z.to_nat (y * width + x))
                   = Some (word_of (pixel_word img mode (x, y)))).
    { unfold vs. rewrite nth_error_map, Hidx. reflexivity. }
    destruct (nth_error_flat_map_le16 vs _ _ Hnth) as [Hlo Hhi].
    repeat split; try assumption.
    apply (f_equal (fun l => nth_error l (Z.to_nat (y * width + x)))) in Hvs.
    rewrite !nth_error_map, Hnth, Hidx in Hvs. cbn in Hvs.
    now injection Hvs as <-.
Qed.

Lemma little_endian_row_major_witness :
  (bm_size Samples.ramp_3x2 = (3, 2) /\ 0 <= 3 <= 7) /\
  exists out vs,
    write_pixels Samples.ramp_3x2 3 2 3 [] = Ok out /\
    map Ok vs = map (pixel_word Samples.ramp_3x2 3) (scan 3 2) /\
    out = flat_map (fun v => [Z.land v 0xFF; Z.land (Z.shiftr v 8) 0xFF]) vs /\
    forall x y, 0 <= x < 3 -> 0 <= y < 2 ->
      exists v,
        nth_error (scan 3 2) (Z.to_nat (y * 3 + x)) = Some (x, y) /\
        pixel_word Samples.ramp_3x2 3 (x, y) = Ok v /\
        nth_error out (2 * Z.to_nat (y * 3 + x)) = Some (Z.land v 0xFF) /\
        nth_error out (2 * Z.to_nat (y * 3 + x) + 1)
          = Some (Z.land (Z.shiftr v 8) 0xFF).
Proof.
  split; [split; [reflexivity | lia]|].
  apply (little_endian_row_major Samples.ramp_3x2 3 2 3); [reflexivity | lia].
Defined.

(** C6. A 2x1 RGB picture whose two pixels are pure red (255, 0, 0),
    converted at width 2 and height 1: in mode 0 each pixel has the value
    0xF800 and the bytes are 00 F8 00 F8; in mode 4 each pixel has the
    value 0x07FF and the bytes are FF 07 FF 07. *)
Theorem red_2x1_scenario (codec : Codec) (b : Bitmap rgb) :
  bm_size b = (2, 1) ->
  bm_px b 0 0 = (255, 0, 0) -> bm_px b 1 0 = (255, 0, 0) ->
  pixel_value 255 0 0 0 = Ok 0xF800 /\
  raw_bytes (ImRGB b) 2 1 0 = Ok [0x00; 0xF8; 0x00; 0xF8] /\
  pixel_value 255 0 0 4 = Ok 0x07FF /\
  raw_bytes (ImRGB b) 2 1 4 = Ok [0xFF; 0x07; 0xFF; 0x07].
Proof.
  intros Hsize H0 H1.
  assert (Hraw : forall mode, 0 <= mode <= 7 ->
            raw_bytes (ImRGB b) 2 1 mode
            = Ok (le16 (word_of (pixel_value 255 0 0 mode))
                  ++ le16 (word_of (pixel_value 255 0 0 mode)))).
  { intros mode Hm. unfold raw_bytes.
    rewrite (prepare_same_size (ImRGB b) 2 1 Hsize). cbn [bind to_rgb].
    rewrite (write_pixels_scan b 2 1 mode [] Hsize Hm).
    change (scan 2 1) with [(0, 0); (1, 0)].
    cbn [map flat_map app]. unfold pixel_word. cbn [fst snd].
    rewrite H0, H1. now rewrite app_nil_r. }
  repeat split.
  - exact (Hraw 0 ltac:(lia)).
  - exact (Hraw 4 ltac:(lia)).
Qed.

Lemma red_2x1_scenario_witness :
  (bm_size (new_rgb (2, 1) (255, 0, 0)) = (2, 1) /\
   bm_px (new_rgb (2, 1) (255, 0, 0)) 0 0 = (255, 0, 0) /\
   bm_px (new_rgb (2, 1) (255, 0, 0)) 1 0 = (255, 0, 0)) /\
  @raw_bytes Samples.nearest Samples.red_2x1 2 1 0
    = Ok [0x00; 0xF8; 0x00; 0xF8] /\
  @raw_bytes Samples.nearest Samples.red_2x1 2 1 4
    = Ok [0xFF; 0x07; 0xFF; 0x07].
Proof.
  pose proof (red_2x1_scenario Samples.nearest (new_rgb (2, 1) (255, 0, 0))
                eq_refl eq_refl eq_refl) as (_ & Hm0 & _ & Hm4).
  repeat split; assumption.
Defined.

(* ===================================================================== *)
(** ** The test picture *)
(* ===================================================================== *)

Lemma NoDup_range (n : Z) : NoDup (range n).
Proof.
  unfold range. apply Injective_map_NoDup.
  - intros a b Hab. now apply Nat2Z.inj.
  - apply seq_NoDup.
Qed.

Lemma putpixel_ok {A : Type} (img : Bitmap A) (x y : Z) (v : A) :
  0 <= x < fst (bm_size img) -> 0 <= y < snd (bm_size img) ->
  putpixel img x y v
  = Ok (mkBitmap (bm_size img)
          (fun x' y' => if (x' =? x) && (y' =? y) then v else bm_px img x' y')).
Proof.
  intros Hx Hy. unfold putpixel, in_bounds.
  replace ((0 <=? x) && (x <? fst (bm_size img)) && (0 <=? y)
           && (y <? snd (bm_size img))) with true; [reflexivity|].
  symmetry. rewrite !andb_true_iff, !Z.leb_le, !Z.ltb_lt. lia.
Qed.

(** One step of the loops of [generate_test_image] paints the pixel
    (x, y) with the colour of its column and touches no other pixel. *)
Lemma paint_spec (img : Bitmap rgb) (x y : Z) :
  bm_size img = (240, 240) -> 0 <= x < 240 -> 0 <= y < 240 ->
  exists img',
    paint x y img = Ok img' /\
    bm_size img' = (240, 240) /\
    forall x' y',
      bm_px img' x' y'
      = if (x' =? x) && (y' =? y) then stripe x else bm_px img x' y'.
Proof.
  intros Hsize Hx Hy. unfold paint, stripe.
  change (SCREEN_WIDTH - 120) with 120.
  assert (Hstep : forall (i : Bitmap rgb) v, bm_size i = (240, 240) ->
            putpixel i x y v
            = Ok (mkBitmap (240, 240)
                    (fun x' y' => if (x' =? x) && (y' =? y) then v
                                  else bm_px i x' y'))).
  { intros i v Hi. rewrite putpixel_ok by (rewrite Hi; cbn; lia).
    now rewrite Hi. }
  destruct (Z.ltb_spec x 80) as [H80 | H80].
  - rewrite Hstep by assumption. cbn [bind].
    destruct (Z.geb_spec x 120) as [H120 | H120]; [lia|].
    destruct (Z.ltb_spec x 120); [| lia].
    eexists. split; [reflexivity|]. split; [reflexivity|]. reflexivity.
  - destruct (Z.ltb_spec x 160) as [H160 | H160].
    + rewrite Hstep by assumption. cbn [bind].
      destruct (Z.geb_spec x 120) as [H120 | H120];
        destruct (Z.ltb_spec x 120); try lia.
      * rewrite Hstep by reflexivity.
        eexists. split; [reflexivity|]. split; [reflexivity|].
        intros x' y'. cbn [bm_px].
        destruct ((x' =? x) && (y' =? y)); reflexivity.
      * eexists. split; [reflexivity|]. split; [reflexivity|]. reflexivity.
    + destruct (Z.ltb_spec x 240) as [H240 | H240]; [| lia].
      rewrite Hstep by assumption. cbn [bind].
      destruct (Z.geb_spec x 120) as [H120 | H120]; [| lia].
      destruct (Z.ltb_spec x 120); [lia|].
      rewrite Hstep by reflexivity.
      eexists. split; [reflexivity|]. split; [reflexivity|].
      intros x' y'. cbn [bm_px].
      destruct ((x' =? x) && (y' =? y)); reflexivity.
Qed.

(** The inner loop paints the row [y] and leaves the other rows alone. *)
Lemma paint_row (img : Bitmap rgb) (y : Z) :
  bm_size img = (240, 240) -> 0 <= y < 240 ->
  exists img',
    for_each (range SCREEN_WIDTH) (fun x test_img => paint x y test_img) img
    = Ok img' /\
    bm_size img' = (240, 240) /\
    (forall x, 0 <= x < 240 -> bm_px img' x y = stripe x) /\
    (forall x' y', y' <> y -> bm_px img' x' y' = bm_px img x' y').
Proof.
  intros Hsize Hy.
  pose (P := fun (done : list Z) (i : Bitmap rgb) =>
               bm_size i = (240, 240) /\
               (forall x, In x done -> bm_px i x y = stripe x) /\
               (forall x' y', y' <> y -> bm_px i x' y' = bm_px img x' y')).
  destruct (for_each_prefix_invariant P (range SCREEN_WIDTH)
              (fun x test_img => paint x y test_img)) with (s := img)
    as (img' & Hrun & Hs' & Hrow & Hrest).
  - intros done x i (rest & Hsplit) (Hi & Hdone & Hother).
    assert (Hx : 0 <= x < 240).
    { apply (in_range SCREEN_WIDTH). rewrite Hsplit.
      apply in_or_app. right. now left. }
    assert (Hfresh : ~ In x done).
    { pose proof (NoDup_range SCREEN_WIDTH) as Hnd. rewrite Hsplit in Hnd.
      apply NoDup_remove_2 in Hnd. intros Hin. apply Hnd.
      apply in_or_app. now left. }
    destruct (paint_spec i x y Hi Hx Hy) as (i' & Hp & Hi' & Hpx).
    exists i'. split; [assumption|]. split; [assumption|]. split.
    + intros x0 Hx0. rewrite Hpx. apply in_app_or in Hx0.
      destruct Hx0 as [Hx0 | [<- | []]].
      * destruct (Z.eqb_spec x0 x) as [-> | Hne]; [contradiction|].
        cbn [andb]. now apply Hdone.
      * now rewrite !Z.eqb_refl.
    + intros x' y' Hy'. rewrite Hpx.
      destruct (Z.eqb_spec y' y) as [-> | Hne]; [contradiction|].
      rewrite andb_false_r. now apply Hother.
  - unfold P. split; [assumption|].
    split; [intros x [] | intros; reflexivity].
  - exists img'. repeat split; try assumption.
    intros x Hx. apply Hrow. now apply (in_range SCREEN_WIDTH).
Qed.

(** The picture that [generate_test_image] builds. *)
Lemma test_pattern_spec :
  exists test_img,
    test_pattern = Ok test_img /\
    bm_size test_img = (240, 240) /\
    forall x y, 0 <= x < 240 -> 0 <= y < 240 ->
                bm_px test_img x y = stripe x.
Proof.
  pose (P := fun (done : list Z) (i : Bitmap rgb) =>
               bm_size i = (240, 240) /\
               forall x y, 0 <= x < 240 -> In y done ->
                           bm_px i x y = stripe x).
  unfold test_pattern.
  destruct (for_each_prefix_invariant P (range SCREEN_HEIGHT)
              (fun y test_img =>
                 for_each (range SCREEN_WIDTH)
                          (fun x test_img => paint x y test_img) test_img))
    with (s := new_rgb (SCREEN_WIDTH, SCREEN_HEIGHT) (0, 0, 0))
    as (img' & Hrun & Hs' & Hall).
  - intros done y i (rest & Hsplit) (Hi & Hdone).
    assert (Hy : 0 <= y < 240).
    { apply (in_range SCREEN_HEIGHT). rewrite Hsplit.
      apply in_or_app. right. now left. }
    assert (Hfresh : ~ In y done).
    { pose proof (NoDup_range SCREEN_HEIGHT) as Hnd. rewrite Hsplit in Hnd.
      apply NoDup_remove_2 in Hnd. intros Hin. apply Hnd.
      apply in_or_app. now left. }
    destruct (paint_row i y Hi Hy) as (i' & Hrow & Hi' & Hpx & Hother).
    exists i'. split; [assumption|]. split; [assumption|].
    intros x y0 Hx Hy0. apply in_app_or in Hy0.
    destruct Hy0 as [Hy0 | [<- | []]].
    + rewrite Hother by (intros ->; contradiction). now apply Hdone.
    + now apply Hpx.
  - unfold P. split; [reflexivity | intros x y _ []].
  - exists img'. repeat split; try assumption.
    intros x y Hx Hy. apply Hall; [assumption|].
    now apply (in_range SCREEN_HEIGHT).
Qed.

(** C9. The test picture, 240 pixels wide, is built without error and its
    pixel (0, 0) is pure red (255, 0, 0); so is every pixel of the columns
    x < 80, which lie in the red stripe and left of x = 120, where the
    grey ramp starts. *)
Theorem test_pattern_origin_red :
  exists test_img,
    test_pattern = Ok test_img /\
    fst (bm_size test_img) = 240 /\
    getpixel test_img 0 0 = Ok (255, 0, 0) /\
    forall x y, 0 <= x < 80 -> 0 <= y < 240 ->
                getpixel test_img x y = Ok (255, 0, 0).
Proof.
  destruct test_pattern_spec as (test_img & Hrun & Hsize & Hpx).
  exists test_img. split; [assumption|]. split; [now rewrite Hsize|].
  assert (Hred : forall x y, 0 <= x < 80 -> 0 <= y < 240 ->
                             getpixel test_img x y = Ok (255, 0, 0)).
  { intros x y Hx Hy. unfold getpixel, in_bounds. rewrite Hsize.
    cbn [fst snd].
    replace ((0 <=? x) && (x <? 240) && (0 <=? y) && (y <? 240)) with true
      by (symmetry; rewrite !andb_true_iff, !Z.leb_le, !Z.ltb_lt; lia).
    rewrite Hpx by lia. unfold stripe.
    destruct (Z.ltb_spec x 80); [reflexivity | lia]. }
  split; [apply Hred; lia | exact Hred].
Qed.

(* ===================================================================== *)
(** ** Flattening the alpha band *)
(* ===================================================================== *)

(** [DIV255] is exact on the multiples of 255 that the blend meets. *)
Lemma DIV255_exact (c : Z) : 0 <= c <= 255 -> DIV255 (255 * c) = c.
Proof.
  intros Hc. unfold DIV255. cbv zeta.
  rewrite !Z.shiftr_div_pow2 by lia. change (2 ^ 8) with 256.
  assert (Hq : (255 * c + 128) / 256 = if c <=? 128 then c else c - 1).
  { destruct (Z.leb_spec c 128).
    - symmetry. apply (Z.div_unique_pos _ _ _ (128 - c)); lia.
    - symmetry. apply (Z.div_unique_pos _ _ _ (384 - c)); lia. }
  rewrite Hq. destruct (Z.leb_spec c 128).
  - symmetry. apply (Z.div_unique_pos _ _ _ 128); lia.
  - symmetry. apply (Z.div_unique_pos _ _ _ 127); lia.
Qed.

(** Under a mask value 0 the destination band stays, under 255 the pasted
    band replaces it. *)
Lemma BLEND8_transparent (dst src : Z) :
  0 <= dst <= 255 -> BLEND8 0 dst src = dst.
Proof.
  intros Hd. unfold BLEND8.
  replace (dst * (255 - 0) + src * 0) with (255 * dst) by ring.
  now apply DIV255_exact.
Qed.

Lemma BLEND8_opaque (dst src : Z) :
  0 <= src <= 255 -> BLEND8 255 dst src = src.
Proof.
  intros Hs. unfold BLEND8.
  replace (dst * (255 - 255) + src * 255) with (255 * src) by ring.
  now apply DIV255_exact.
Qed.

Lemma getpixel_in {A : Type} (img : Bitmap A) (x y : Z) :
  0 <= x < fst (bm_size img) -> 0 <= y < snd (bm_size img) ->
  getpixel img x y = Ok (bm_px img x y).
Proof.
  intros Hx Hy. unfold getpixel, in_bounds.
  replace ((0 <=? x) && (x <? fst (bm_size img)) && (0 <=? y)
           && (y <? snd (bm_size img))) with true; [reflexivity|].
  symmetry. rewrite !andb_true_iff, !Z.leb_le, !Z.ltb_lt. lia.
Qed.

(** The picture of [Samples.la_1x1] after lines 30-35: its transparent
    pixel is black. *)
Example la_1x1_flattened :
  getpixel (to_rgb Samples.la_1x1) 0 0 = Ok (0, 0, 0).
Proof. reflexivity. Qed.

(** C7, as stated, fails: a picture in mode 'LA' has an alpha band, yet
    it goes through [convert('RGB')], and its fully transparent pixel
    keeps its grey level instead of turning white. *)
Lemma transparent_la_pixel_not_white :
  ~ (forall img x y,
        has_alpha img = true ->
        0 <= x < fst (size img) -> 0 <= y < snd (size img) ->
        alpha_at img x y = Some 0 ->
        getpixel (to_rgb img) x y = Ok white).
Proof.
  intros Hclaim.
  specialize (Hclaim Samples.la_1x1 0 0 eq_refl).
  cbn in Hclaim.
  specialize (Hclaim ltac:(lia) ltac:(lia) eq_refl).
  discriminate Hclaim.
Qed.

(** C7, amended.  A picture in mode 'RGBA' is pasted on a white
    background under its alpha band: every fully transparent pixel
    (alpha 0) becomes pure white.  In a picture with an alpha band, every
    fully opaque pixel (alpha 255) with 8-bit colour bands keeps its
    colour. *)
Theorem rgba_flattened_on_white (img : Image) (x y : Z) :
  0 <= x < fst (size img) -> 0 <= y < snd (size img) ->
  (mode img = "RGBA"%string -> alpha_at img x y = Some 0 ->
   getpixel (to_rgb img) x y = Ok white) /\
  (has_alpha img = true -> alpha_at img x y = Some 255 ->
   (let '(r, g, b) := color_at img x y in
    0 <= r <= 255 /\ 0 <= g <= 255 /\ 0 <= b <= 255) ->
   getpixel (to_rgb img) x y = Ok (color_at img x y)).
Proof.
  intros Hx Hy.
  rewrite getpixel_in by (rewrite to_rgb_size; assumption).
  split.
  - intros Hmode Ha. destruct img as [b | b | b | b]; try discriminate Hmode.
    cbn [to_rgb paste_alpha bm_px new_rgb alpha_at] in *.
    destruct (bm_px b x y) as [[[r g] bl] a].
    injection Ha as ->. unfold white.
    now rewrite !BLEND8_transparent by lia.
  - intros Halpha Ha Hcol.
    destruct img as [b | b | b | b]; try discriminate Halpha.
    + unfold color_at in *.
      cbn [to_rgb paste_alpha convert_rgb bm_px new_rgb alpha_at] in *.
      destruct (bm_px b x y) as [[[r g] bl] a].
      injection Ha as ->. destruct Hcol as (Hr & Hg & Hb).
      now rewrite !BLEND8_opaque by assumption.
    + reflexivity.
Qed.

Lemma rgba_flattened_on_white_witness :
  (0 <= 0 < fst (size Samples.rgba_2x1) /\
   0 <= 0 < snd (size Samples.rgba_2x1) /\
   mode Samples.rgba_2x1 = "RGBA"%string /\
   alpha_at Samples.rgba_2x1 0 0 = Some 0) /\
  getpixel (to_rgb Samples.rgba_2x1) 0 0 = Ok white /\
  (0 <= 1 < fst (size Samples.rgba_2x1) /\
   has_alpha Samples.rgba_2x1 = true /\
   alpha_at Samples.rgba_2x1 1 0 = Some 255) /\
  getpixel (to_rgb Samples.rgba_2x1) 1 0 = Ok (10, 20, 250).
Proof.
  assert (H0 : 0 <= 0 < fst (size Samples.rgba_2x1)) by (cbn; lia).
  assert (H1 : 0 <= 1 < fst (size Samples.rgba_2x1)) by (cbn; lia).
  assert (Hy : 0 <= 0 < snd (size Samples.rgba_2x1)) by (cbn; lia).
  split; [exact (conj H0 (conj Hy (conj eq_refl eq_refl)))|].
  split.
  - apply (proj1 (rgba_flattened_on_white Samples.rgba_2x1 0 0 H0 Hy));
      reflexivity.
  - split; [exact (conj H1 (conj eq_refl eq_refl))|].
    apply (proj2 (rgba_flattened_on_white Samples.rgba_2x1 1 0 H1 Hy));
      [reflexivity | reflexivity | cbn; lia].
Defined.

(* ===================================================================== *)
(** ** The batch run *)
(* ===================================================================== *)

Section Batch.

Context {codec : Codec}.

(** A directory with dotted entries is taken as it is: no test picture. *)
Lemma auto_detect_keeps (w : World) :
  imgs_exists w = true -> glob w any_dotted <> [] ->
  auto_detect_directories w = Ok (w, None).
Proof.
  intros Hex Hfiles. unfold auto_detect_directories. rewrite Hex. cbn [negb].
  destruct (glob w any_dotted); [contradiction | reflexivity].
Qed.

(** The test picture cannot be saved on a disk that refuses writes. *)
Lemma generate_test_image_read_only (w : World) :
  writable w = false -> generate_test_image w = Raise OSError.
Proof.
  intros Hro. unfold generate_test_image.
  destruct test_pattern_spec as (test_img & -> & _). cbn [bind].
  unfold makedirs_imgs. destruct (imgs w) as [es |] eqn:Himgs.
  - cbn [bind]. unfold save_jpeg. now rewrite Himgs, Hro.
  - now rewrite Hro.
Qed.

(** When the test picture is needed and the disk refuses writes,
    [auto_detect_directories] raises. *)
Lemma auto_detect_read_only (w : World) :
  writable w = false ->
  imgs_exists w = false \/ glob w any_dotted = [] ->
  auto_detect_directories w = Raise OSError.
Proof.
  intros Hro Hneed. unfold auto_detect_directories.
  destruct (imgs_exists w) eqn:Hex; cbn [negb].
  - destruct Hneed as [Hno | Hempty]; [discriminate|].
    rewrite Hempty. now rewrite generate_test_image_read_only.
  - unfold makedirs_imgs. unfold imgs_exists in Hex.
    destruct (imgs w); [discriminate|]. now rewrite Hro.
Qed.

End Batch.

(** C8, as stated, fails: on a disk that refuses writes, with only a
    text file in [imgs], no picture is found and no test picture can be
    written, yet [main] returns like any completed run; the exit status
    is that of a success. *)
Lemma no_picture_run_reports_success :
  image_files_of Samples.notes_only_read_only = [] /\
  writable Samples.notes_only_read_only = false /\
  @generate_test_image Samples.nearest Samples.notes_only_read_only
    = Raise OSError /\
  @main Samples.nearest Samples.notes_only_read_only
    = Ok Samples.notes_only_read_only /\
  @run Samples.nearest Samples.notes_only_read_only = 0 /\
  ~ (forall w,
        image_files_of w = [] -> writable w = false ->
        @generate_test_image Samples.nearest w = Raise OSError ->
        @run Samples.nearest w <> 0).
Proof.
  assert (Hgen : @generate_test_image Samples.nearest
                   Samples.notes_only_read_only = Raise OSError)
    by (apply generate_test_image_read_only; reflexivity).
  split; [reflexivity|]. split; [reflexivity|]. split; [exact Hgen|].
  split; [reflexivity|]. split; [reflexivity|].
  intros Hclaim.
  exact (Hclaim Samples.notes_only_read_only eq_refl eq_refl Hgen eq_refl).
Qed.

(** C8, amended.  Take a run that finds no picture.  When [imgs] holds a
    visible entry with a dot in its name (what the pattern [*.*] finds), no
    test picture is attempted and the run stops before anything is
    written: [main] returns normally, the project directory is unchanged
    and the exit status is 0, also on a disk where no test picture could
    be written.  When [imgs] is missing or holds no such entry, the test
    picture is needed; on a disk that refuses writes it cannot be written
    and the run fails with the I/O error of the write, exit status 1. *)
Theorem empty_input_outcome (codec : Codec) (w : World) :
  image_files_of w = [] ->
  (glob w any_dotted <> [] ->
   auto_detect_directories w = Ok (w, None) /\
   main w = Ok w /\ run w = 0) /\
  (glob w any_dotted = [] -> writable w = false ->
   generate_test_image w = Raise OSError /\
   main w = Raise OSError /\ run w = 1).
Proof.
  intros Hnone. split.
  - intros Hfiles.
    assert (Hex : imgs_exists w = true).
    { unfold imgs_exists. unfold glob in Hfiles.
      destruct (imgs w); [reflexivity | contradiction]. }
    pose proof (auto_detect_keeps w Hex Hfiles) as Hauto.
    assert (Hmain : main w = Ok w).
    { unfold main. rewrite Hauto. cbn [bind].
      change (glob w (with_ext ".jpg") ++ glob w (with_ext ".jpeg")
                ++ glob w (with_ext ".png"))%list with (image_files_of w).
      now rewrite Hnone. }
    split; [assumption|]. split; [assumption|].
    unfold run. now rewrite Hmain.
  - intros Hempty Hro.
    assert (Hmain : main w = Raise OSError).
    { unfold main.
      now rewrite (auto_detect_read_only w Hro (or_intror Hempty)). }
    split; [now apply generate_test_image_read_only|].
    split; [assumption|]. unfold run. now rewrite Hmain.
Qed.

Lemma empty_input_outcome_witness :
  (image_files_of Samples.notes_only_read_only = [] /\
   glob Samples.notes_only_read_only any_dotted <> [] /\
   writable Samples.notes_only_read_only = false) /\
  (@main Samples.nearest Samples.notes_only_read_only
     = Ok Samples.notes_only_read_only /\
   @run Samples.nearest Samples.notes_only_read_only = 0) /\
  (image_files_of Samples.read_only_empty = [] /\
   glob Samples.read_only_empty any_dotted = [] /\
   writable Samples.read_only_empty = false) /\
  (@main Samples.nearest Samples.read_only_empty = Raise OSError /\
   @run Samples.nearest Samples.read_only_empty = 1).
Proof.
  assert (Hdot : glob Samples.notes_only_read_only any_dotted <> [])
    by (intros H; discriminate H).
  split; [split; [reflexivity | split; [exact Hdot | reflexivity]]|].
  split.
  - destruct (proj1 (empty_input_outcome Samples.nearest
                       Samples.notes_only_read_only eq_refl) Hdot)
      as (_ & Hmain & Hrun).
    split; [exact Hmain | exact Hrun].
  - split; [split; [reflexivity | split; reflexivity]|].
    destruct (proj2 (empty_input_outcome Samples.nearest
                       Samples.read_only_empty eq_refl) eq_refl eq_refl)
      as (_ & Hmain & Hrun).
    split; [exact Hmain | exact Hrun].
Defined.

(* ===================================================================== *)
(** ** Further properties of the encoder *)
(* ===================================================================== *)

(** The value assigned to [pixel], mode by mode, masks included. *)
Lemma base_pixel_masked (r g b mode : Z) :
  0 <= mode <= 7 ->
  base_pixel r g b mode
  = Some (Z.lor
            (Z.lor (Z.shiftl (Z.land (Z.shiftr (if bgr mode then b else r) 3)
                                     0x1F) 11)
                   (if compact mode
                    then Z.shiftl (Z.land (Z.shiftr g 3) 0x1F) 6
                    else Z.shiftl (Z.land (Z.shiftr g 2) 0x3F) 5))
            (Z.land (Z.shiftr (if bgr mode then r else b) 3) 0x1F)).
Proof.
  intros Hm.
  assert (Hcases : mode = 0 \/ mode = 1 \/ mode = 2 \/ mode = 3 \/
                   mode = 4 \/ mode = 5 \/ mode = 6 \/ mode = 7) by lia.
  destruct Hcases as [-> | [-> | [-> | [-> | [-> | [-> | [-> | ->]]]]]]];
    reflexivity.
Qed.

(** Whatever integers the channels hold, the masks keep the value
    assigned to [pixel] within 16 bits. *)
Lemma base_pixel_range (r g b mode : Z) :
  0 <= mode <= 7 ->
  exists q, base_pixel r g b mode = Some q /\ 0 <= q <= 0xFFFF.
Proof.
  intros Hm. rewrite (base_pixel_masked r g b mode Hm).
  eexists. split; [reflexivity|].
  pose proof (land_mask_range (Z.shiftr (if bgr mode then b else r) 3) 5
                ltac:(lia)) as Htop.
  pose proof (land_mask_range (Z.shiftr (if bgr mode then r else b) 3) 5
                ltac:(lia)) as Hlow.
  pose proof (land_mask_range (Z.shiftr g 3) 5 ltac:(lia)) as Hg5.
  pose proof (land_mask_range (Z.shiftr g 2) 6 ltac:(lia)) as Hg6.
  change (2 ^ 5 - 1) with 0x1F in Htop, Hlow, Hg5.
  change (2 ^ 6 - 1) with 0x3F in Hg6.
  change (2 ^ 5) with 32 in Htop, Hlow, Hg5. change (2 ^ 6) with 64 in Hg6.
  destruct (compact mode).
  - rewrite pack3_sum by (try change (2 ^ (11 - 6)) with 32; lia).
    change (2 ^ 6) with 64. lia.
  - rewrite pack3_sum by (try change (2 ^ (11 - 5)) with 64; lia).
    change (2 ^ 5) with 32. lia.
Qed.

(** X1. For any integer channel values, even outside 0..255, and every
    mode 0..7, the masks of lines 48-65 keep the written value within
    0..0xFFFF, and [bytes] accepts the two bytes made from it: both lie in
    0..255 and rebuild the value. *)
Theorem masks_bound_any_channels (r g b mode : Z) :
  0 <= mode <= 7 ->
  exists p lo hi,
    pixel_value r g b mode = Ok p /\ 0 <= p <= 0xFFFF /\
    pixel_bytes p = Ok [lo; hi] /\
    0 <= lo <= 255 /\ 0 <= hi <= 255 /\ lo + 256 * hi = p.
Proof.
  intros Hm. destruct (base_pixel_range r g b mode Hm) as (q & Hq & Hrange).
  assert (Hp : exists p, pixel_value r g b mode = Ok p /\ 0 <= p <= 0xFFFF).
  { destruct (Z.lt_ge_cases mode 4).
    - exists q. split; [now apply pixel_value_normal | assumption].
    - exists (0xFFFF - q). split; [now apply pixel_value_inverted | lia]. }
  destruct Hp as (p & Hp & Hprange).
  exists p, (Z.land p 0xFF), (Z.land (Z.shiftr p 8) 0xFF).
  pose proof (land_mask_range p 8 ltac:(lia)) as Hlo.
  pose proof (land_mask_range (Z.shiftr p 8) 8 ltac:(lia)) as Hhi.
  change (2 ^ 8 - 1) with 0xFF in Hlo, Hhi. change (2 ^ 8) with 256 in Hlo, Hhi.
  repeat split; try assumption; try lia.
  - apply pixel_bytes_ok.
  - now apply two_bytes_rebuild.
Qed.

Lemma masks_bound_any_channels_witness :
  0 <= 6 <= 7 /\
  exists p lo hi,
    pixel_value (-5) 70000 256 6 = Ok p /\ 0 <= p <= 0xFFFF /\
    pixel_bytes p = Ok [lo; hi] /\
    0 <= lo <= 255 /\ 0 <= hi <= 255 /\ lo + 256 * hi = p.
Proof.
  split; [lia|]. apply (masks_bound_any_channels (-5) 70000 256 6). lia.
Defined.





(** The two bytes of a complemented 16-bit word are the complements of
    the two bytes of the word. *)
Lemma le16_complement (q : Z) :
  0 <= q <= 0xFFFF -> le16 (0xFFFF - q) = complement_bytes (le16 q).
Proof.
  intros Hq. unfold le16, complement_bytes. cbn [map].
  change 0xFF with (2 ^ 8 - 1). rewrite !land_mask_mod by lia.
  rewrite !Z.shiftr_div_pow2 by lia. change (2 ^ 8) with 256.
  pose proof (Z.div_mod q 256 ltac:(lia)) as Hdm.
  pose proof (Z.mod_pos_bound q 256 ltac:(lia)) as Hmod.
  assert (Hdiv : 0 <= q / 256 <= 255).
  { split; [apply Z.div_pos; lia|].
    apply Z.lt_succ_r. apply Z.div_lt_upper_bound; lia. }
  assert (Hqd : (0xFFFF - q) / 256 = 255 - q / 256).
  { symmetry. apply (Z.div_unique_pos _ _ _ (255 - q mod 256)); lia. }
  assert (Hqm : (0xFFFF - q) mod 256 = 255 - q mod 256).
  { symmetry. apply (Z.mod_unique_pos _ _ (255 - q / 256)); lia. }
  rewrite Hqd, Hqm.
  rewrite (Z.mod_small (255 - q / 256)) by lia.
  rewrite (Z.mod_small (q / 256)) by lia. reflexivity.
Qed.

(** X3. On a prepared picture of the target size, with any integer
    channel values, the file written in mode m + 4 (m in 0..3) is the file
    written in mode m with every byte replaced by 255 minus that byte. *)
Theorem inverted_file_is_bytewise_complement
        (img : Bitmap rgb) (width height m : Z) :
  bm_size img = (width, height) -> 0 <= m <= 3 ->
  exists out,
    write_pixels img width height m [] = Ok out /\
    write_pixels img width height (m + 4) [] = Ok (complement_bytes out).
Proof.
  intros Hsize Hm.
  rewrite (write_pixels_scan img width height m [] Hsize ltac:(lia)).
  rewrite (write_pixels_scan img width height (m + 4) [] Hsize ltac:(lia)).
  eexists. split; [reflexivity|]. cbn [app]. f_equal.
  induction (scan width height) as [| [x y] l IH]; [reflexivity|].
  cbn [map flat_map]. unfold complement_bytes in *.
  rewrite map_app, <- IH. f_equal.
  unfold pixel_word. cbn [fst snd]. destruct (bm_px img x y) as [[r g] b].
  destruct (base_pixel_range r g b m ltac:(lia)) as (q & Hq & Hrange).
  rewrite (pixel_value_normal r g b m q ltac:(lia) Hq).
  rewrite (pixel_value_inverted r g b (m + 4) q ltac:(lia))
    by (rewrite base_pixel_plus4 by assumption; exact Hq).
  cbn [word_of]. now apply le16_complement.
Qed.

Lemma inverted_file_is_bytewise_complement_witness :
  (bm_size Samples.ramp_3x2 = (3, 2) /\ 0 <= 1 <= 3) /\
  exists out,
    write_pixels Samples.ramp_3x2 3 2 1 [] = Ok out /\
    write_pixels Samples.ramp_3x2 3 2 (1 + 4) [] = Ok (complement_bytes out).
Proof.
  split; [split; [reflexivity | lia]|].
  apply (inverted_file_is_bytewise_complement Samples.ramp_3x2 3 2 1);
    [reflexivity | lia].
Defined.

(** X4. Two 8-bit triples get the same word in a mode 0..7 exactly when
    they agree on the bits the mode keeps: the top 5 bits of red and of
    blue and the top 6 bits of green (the top 5 in the compact modes).
    The encoder loses the low bits and nothing else. *)
Theorem same_word_iff_same_kept_bits (r g b r' g' b' mode : Z) :
  0 <= r < 256 -> 0 <= g < 256 -> 0 <= b < 256 ->
  0 <= r' < 256 -> 0 <= g' < 256 -> 0 <= b' < 256 ->
  0 <= mode <= 7 ->
  pixel_value r g b mode = pixel_value r' g' b' mode
  <-> kept_bits r g b mode = kept_bits r' g' b' mode.
Proof.
  intros Hr Hg Hb Hr' Hg' Hb' Hm.
  pose proof (base_pixel_fields r g b mode Hr Hg Hb Hm) as Hq.
  pose proof (base_pixel_fields r' g' b' mode Hr' Hg' Hb' Hm) as Hq'.
  assert (Hword : pixel_value r g b mode = pixel_value r' g' b' mode
                  <-> top_field r g b mode + mid_field r g b mode
                      + low_field r g b mode
                      = top_field r' g' b' mode + mid_field r' g' b' mode
                        + low_field r' g' b' mode).
  { destruct (Z.lt_ge_cases mode 4) as [Hlt | Hge].
    - rewrite (pixel_value_normal _ _ _ _ _ Hlt Hq).
      rewrite (pixel_value_normal _ _ _ _ _ Hlt Hq').
      split; [intros H'; now injection H' | intros ->; reflexivity].
    - rewrite (pixel_value_inverted _ _ _ _ _ Hge Hq).
      rewrite (pixel_value_inverted _ _ _ _ _ Hge Hq').
      split; [| intros ->; reflexivity].
      intros H'. apply (f_equal word_of) in H'. cbn [word_of] in H'. lia. }
  rewrite Hword. clear Hword Hq Hq'.
  pose proof (channel_shift_range r 3 Hr ltac:(lia)) as Hr5.
  pose proof (channel_shift_range g 3 Hg ltac:(lia)) as Hg5.
  pose proof (channel_shift_range g 2 Hg ltac:(lia)) as Hg6.
  pose proof (channel_shift_range b 3 Hb ltac:(lia)) as Hb5.
  pose proof (channel_shift_range r' 3 Hr' ltac:(lia)) as Hr5'.
  pose proof (channel_shift_range g' 3 Hg' ltac:(lia)) as Hg5'.
  pose proof (channel_shift_range g' 2 Hg' ltac:(lia)) as Hg6'.
  pose proof (channel_shift_range b' 3 Hb' ltac:(lia)) as Hb5'.
  change (2 ^ (8 - 3)) with 32 in *. change (2 ^ (8 - 2)) with 64 in *.
  unfold top_field, mid_field, low_field, kept_bits.
  rewrite !Z.shiftl_mul_pow2 by lia.
  change (2 ^ 11) with 2048.
  destruct (bgr mode), (compact mode); cbv beta iota;
    rewrite ?Z.shiftl_mul_pow2 by lia;
    change (2 ^ 6) with 64; change (2 ^ 5) with 32;
    (split; [intros Hsum; f_equal; [f_equal|]; lia
            | intros Hkept; injection Hkept as -> -> ->; reflexivity]).
Qed.

Lemma same_word_iff_same_kept_bits_witness :
  (0 <= 200 < 256 /\ 0 <= 101 < 256 /\ 0 <= 55 < 256 /\
   0 <= 207 < 256 /\ 0 <= 103 < 256 /\ 0 <= 48 < 256 /\ 0 <= 0 <= 7) /\
  (pixel_value 200 101 55 0 = pixel_value 207 103 48 0
   <-> kept_bits 200 101 55 0 = kept_bits 207 103 48 0).
Proof.
  split; [lia|].
  apply (same_word_iff_same_kept_bits 200 101 55 207 103 48 0); lia.
Defined.

(* ===================================================================== *)
(** ** Further properties of the test picture *)
(* ===================================================================== *)

(** X5. The picture built by lines 77-93 is 240x240 and, on every row,
    red for x < 80, green for 80 <= x < 120 and grey of level
    255 * (x - 120) / 120 (integer quotient) from x = 120 on.  The grey
    ramp overwrites the whole blue stripe and part of the green one: no
    pixel is blue, and the ramp stops at level 252, short of white. *)
Theorem test_pattern_layout :
  exists test_img,
    test_pattern = Ok test_img /\
    bm_size test_img = (240, 240) /\
    forall x y, 0 <= x < 240 -> 0 <= y < 240 ->
      exists c,
        getpixel test_img x y = Ok c /\
        (x < 80 -> c = (255, 0, 0)) /\
        (80 <= x < 120 -> c = (0, 255, 0)) /\
        (120 <= x ->
         exists gray, c = (gray, gray, gray) /\
                      gray = 255 * (x - 120) / 120 /\ 0 <= gray <= 252) /\
        c <> (0, 0, 255) /\ c <> (255, 255, 255).
Proof.
  destruct test_pattern_spec as (test_img & Hrun & Hsize & Hpx).
  exists test_img. split; [assumption|]. split; [assumption|].
  intros x y Hx Hy. exists (stripe x). split.
  { rewrite getpixel_in.
    - f_equal. now apply Hpx.
    - rewrite Hsize. exact Hx.
    - rewrite Hsize. exact Hy. }
  assert (Hgray : 120 <= x -> 0 <= 255 * (x - 120) / 120 <= 252).
  { intros H120. split.
    - apply Z.div_pos; lia.
    - apply Z.lt_succ_r. apply Z.div_lt_upper_bound; lia. }
  unfold stripe.
  destruct (Z.ltb_spec x 80) as [H80 | H80].
  { split; [reflexivity|]. split; [intros; lia|]. split; [intros; lia|].
    split; intros Heq; discriminate Heq. }
  destruct (Z.ltb_spec x 120) as [H120 | H120].
  { split; [intros; lia|]. split; [reflexivity|]. split; [intros; lia|].
    split; intros Heq; discriminate Heq. }
  specialize (Hgray H120). cbv zeta.
  set (gray := 255 * (x - 120) / 120) in *.
  split; [intros; lia|]. split; [intros; lia|]. split.
  - intros _. exists gray. split; [reflexivity|]. split; [reflexivity|].
    exact Hgray.
  - split; intros Heq.
    + assert (H1 : gray = 0) by congruence.
      assert (H2 : gray = 255) by congruence. lia.
    + assert (H1 : gray = 255) by congruence. lia.
Qed.

(* ===================================================================== *)
(** ** File names *)
(* ===================================================================== *)

Section Names.

Local Open Scope string_scope.

Lemma length_append (s t : string) :
  String.length (s ++ t) = (String.length s + String.length t)%nat.
Proof. induction s as [| c s IH]; cbn; [reflexivity | now rewrite IH]. Qed.

Lemma substring_prefix_append (s t : string) :
  substring 0 (String.length s) (s ++ t) = s.
Proof. induction s as [| c s IH]; cbn; [now destruct t | now rewrite IH]. Qed.

Lemma substring_suffix_append (s t : string) :
  substring (String.length s) (String.length t) (s ++ t) = t.
Proof.
  induction s as [| c s IH]; cbn; [| exact IH].
  induction t as [| c t IHt]; cbn; [reflexivity | now rewrite IHt].
Qed.

(** A string is its first [m] characters followed by the rest. *)
Lemma substring_split (s : string) (m : nat) :
  (m <= String.length s)%nat ->
  s = substring 0 m s ++ substring m (String.length s - m) s.
Proof.
  revert m. induction s as [| c s IH]; intros m Hm.
  - cbn in Hm. assert (m = 0%nat) by lia. subst. reflexivity.
  - destruct m as [| m].
    + cbn [substring append String.length Nat.sub].
      f_equal. clear. induction s as [| d s IHs]; cbn; [reflexivity|].
      now rewrite <- IHs.
    + cbn [substring append String.length Nat.sub]. f_equal.
      apply IH. cbn in Hm. lia.
Qed.

(** [with_ext ext name] says that [name] is some stem followed by
    [ext]. *)
Lemma with_ext_iff (ext name : string) :
  with_ext ext name = true <-> exists stem, name = stem ++ ext.
Proof.
  unfold with_ext. split.
  - intros H. apply andb_true_iff in H. destruct H as [Hlen Heq].
    apply Nat.leb_le in Hlen. apply String.eqb_eq in Heq.
    exists (substring 0 (String.length name - String.length ext) name).
    pose proof (substring_split name
                  (String.length name - String.length ext) ltac:(lia)) as Hs.
    replace (String.length name - (String.length name - String.length ext))%nat
      with (String.length ext) in Hs by lia.
    rewrite Heq in Hs. exact Hs.
  - intros (stem & ->). rewrite length_append.
    apply andb_true_iff. split; [apply Nat.leb_le; lia|].
    apply String.eqb_eq.
    replace (String.length stem + String.length ext - String.length ext)%nat
      with (String.length stem) by lia.
    apply substring_suffix_append.
Qed.

(** A name that does not start with a dot and ends with a dotted
    extension has a stem that starts with another character. *)
Lemma visible_stem (stem e : string) :
  prefix "." (stem ++ String "." e) = false ->
  exists c stem', stem = String c stem' /\ Ascii.eqb c "." = false.
Proof.
  destruct stem as [| c stem']; cbn.
  - destruct (ascii_dec "." "."); [| congruence].
    destruct e; discriminate.
  - destruct (ascii_dec "." c) as [<- | Hne]; [| intros _].
    + destruct (stem' ++ String "." e); discriminate.
    + exists c, stem'. split; [reflexivity|].
      apply Ascii.eqb_neq. congruence.
Qed.

Lemma rfind_dot_dotless (e : string) (i : nat) :
  dotless e = true -> rfind_dot e i = None.
Proof.
  revert i. induction e as [| c e IH]; intros i He; [reflexivity|].
  cbn in *. apply andb_true_iff in He. destruct He as [Hc He].
  rewrite (IH (S i) He). apply negb_true_iff in Hc. now rewrite Hc.
Qed.

(** The last dot of stem.ext, when ext holds no dot, is the one before
    ext. *)
Lemma rfind_dot_ext (stem e : string) (i : nat) :
  dotless e = true ->
  rfind_dot (stem ++ String "." e) i = Some (i + String.length stem)%nat.
Proof.
  intros He. revert i. induction stem as [| c stem IH]; intros i.
  - cbn. rewrite (rfind_dot_dotless e (S i) He). f_equal. lia.
  - cbn [append rfind_dot String.length]. rewrite IH. f_equal. lia.
Qed.

(** [splitext] gives back the stem of a visible name stem.ext. *)
Lemma splitext_root_stem (stem e : string) :
  dotless e = true ->
  prefix "." (stem ++ String "." e) = false ->
  splitext_root (stem ++ String "." e) = stem.
Proof.
  intros He Hvis. unfold splitext_root. rewrite rfind_dot_ext by assumption.
  cbn [Nat.add].
  destruct (visible_stem stem e Hvis) as (c & stem' & -> & Hc).
  cbn [append String.length has_stem]. rewrite Hc. cbn [negb orb].
  exact (substring_prefix_append (String c stem') (String "." e)).
Qed.

(** A name with a dotted extension contains a dot. *)
Lemma any_dotted_ext (stem e : string) :
  any_dotted (stem ++ String "." e) = true.
Proof.
  unfold any_dotted.
  assert (H : exists n, index 0 "." (stem ++ String "." e) = Some n).
  { induction stem as [| c stem [n IH]].
    - exists 0%nat. cbn. destruct (ascii_dec "." "."); [| congruence].
      now destruct e.
    - cbn [append index].
      destruct (prefix "." (String c (stem ++ String "." e))).
      + now exists 0%nat.
      + rewrite IH. now exists (S n). }
  destruct H as [n ->]. reflexivity.
Qed.

End Names.

(** X6. For a visible file name stem.ext whose extension holds no dot
    (as jpg, jpeg and png), the raw file of a mode is
    <mode directory>/stem.raw: the extension is dropped, dots inside the
    stem are kept, and pictures that differ only by their extension share
    one raw path. *)
Theorem raw_path_of_stem (mode : Z) (stem e : string) :
  dotless e = true ->
  prefix "." (stem ++ String "." e) = false ->
  raw_path_of mode (stem ++ String "." e)
  = (mode_dir_of mode ++ "/" ++ stem ++ ".raw")%string.
Proof.
  intros He Hvis. unfold raw_path_of.
  now rewrite splitext_root_stem.
Qed.

Lemma raw_path_of_stem_witness :
  (dotless "jpeg" = true /\
   prefix "." ("my.photo" ++ String "." "jpeg") = false) /\
  raw_path_of 3 "my.photo.jpeg" = "assets/mode_3/my.photo.raw"%string.
Proof.
  split; [split; reflexivity|].
  exact (raw_path_of_stem 3 "my.photo" "jpeg" eq_refl eq_refl).
Defined.

(* ===================================================================== *)
(** ** Finding the pictures *)
(* ===================================================================== *)

Lemma in_glob (w : World) (pattern : string -> bool) (name : string) :
  In name (glob w pattern) <->
  exists es, imgs w = Some es /\ In name (map fst es) /\
             prefix "." name = false /\ pattern name = true.
Proof.
  unfold glob. destruct (imgs w) as [es |].
  - rewrite filter_In, andb_true_iff, negb_true_iff. split.
    + intros (Hin & Hvis & Hpat). exists es. auto.
    + intros (es' & Heq & Hin & Hvis & Hpat). injection Heq as <-. auto.
  - split; [intros [] | intros (es & Heq & _); discriminate].
Qed.

(** A found picture is a visible name with a dotted extension. *)
Lemma in_image_files (w : World) (name : string) :
  In name (image_files_of w) <->
  exists es, imgs w = Some es /\ In name (map fst es) /\
             prefix "." name = false /\
             (with_ext ".jpg" name = true \/ with_ext ".jpeg" name = true \/
              with_ext ".png" name = true).
Proof.
  unfold image_files_of. rewrite !in_app_iff, !in_glob. split.
  - intros [H | [H | H]]; destruct H as (es & He & Hin & Hvis & Hext);
      exists es; (split; [exact He|]); (split; [exact Hin|]);
      (split; [exact Hvis|]); tauto.
  - intros (es & He & Hin & Hvis & [H | [H | H]]);
      [left | right; left | right; right]; exists es;
      (split; [exact He|]); (split; [exact Hin|]); (split; [exact Hvis|]);
      exact H.
Qed.

Lemma found_is_dotted (name : string) :
  with_ext ".jpg" name = true \/ with_ext ".jpeg" name = true \/
  with_ext ".png" name = true ->
  any_dotted name = true.
Proof.
  intros [H | [H | H]]; apply with_ext_iff in H; destruct H as (stem & ->);
    apply any_dotted_ext.
Qed.

Section Detection.

Context {codec : Codec}.

(** A directory in which [main] finds pictures has dotted entries. *)
Lemma auto_detect_with_pictures (w : World) :
  image_files_of w <> [] ->
  auto_detect_directories w = Ok (w, None).
Proof.
  intros Hfound.
  destruct (image_files_of w) as [| name rest] eqn:Hfiles; [contradiction|].
  assert (Hin : In name (image_files_of w)) by (rewrite Hfiles; now left).
  apply in_image_files in Hin. destruct Hin as (es & Himgs & Hin & Hvis & Hext).
  apply auto_detect_keeps.
  - unfold imgs_exists. now rewrite Himgs.
  - intros Hempty.
    assert (Hdot : In name (glob w any_dotted)).
    { apply in_glob. exists es. repeat split; try assumption.
      now apply found_is_dotted. }
    rewrite Hempty in Hdot. destruct Hdot.
Qed.

(** X7. When [imgs] holds at least one visible .jpg, .jpeg or .png file,
    [auto_detect_directories] generates no test picture and leaves the
    project directory as it is. *)
Theorem pictures_suppress_test_pattern (w : World) :
  image_files_of w <> [] ->
  auto_detect_directories w = Ok (w, None).
Proof. exact (auto_detect_with_pictures w). Qed.

End Detection.

Lemma pictures_suppress_test_pattern_witness :
  image_files_of Samples.one_picture <> [] /\
  @auto_detect_directories Samples.nearest Samples.one_picture
  = Ok (Samples.one_picture, None).
Proof.
  assert (H : image_files_of Samples.one_picture <> []) by discriminate.
  split; [exact H|].
  exact (@pictures_suppress_test_pattern Samples.nearest
           Samples.one_picture H).
Defined.

(* ===================================================================== *)
(** ** Association lists *)
(* ===================================================================== *)

Lemma lookup_update_other {A : Type} (k k' : string) (v : A)
      (l : list (string * A)) :
  k' <> k -> lookup k' (update k v l) = lookup k' l.
Proof.
  intros Hne. induction l as [| [k0 v0] l IH]; cbn [update lookup].
  - destruct (String.eqb_spec k' k); [contradiction | reflexivity].
  - destruct (String.eqb_spec k k0) as [-> | Hk]; cbn [lookup].
    + destruct (String.eqb_spec k' k0); [contradiction | reflexivity].
    + destruct (String.eqb_spec k' k0); [reflexivity | exact IH].
Qed.

Lemma update_fresh {A : Type} (k : string) (v : A) (l : list (string * A)) :
  ~ In k (map fst l) -> update k v l = l ++ [(k, v)].
Proof.
  induction l as [| [k0 v0] l IH]; intros Hfresh; [reflexivity|].
  cbn [update app]. cbn [map fst In] in Hfresh.
  destruct (String.eqb_spec k k0) as [-> | Hk].
  - exfalso. apply Hfresh. now left.
  - f_equal. apply IH. intros Hin. apply Hfresh. now right.
Qed.

Lemma filter_none {A : Type} (f : A -> bool) (l : list A) :
  (forall x, In x l -> f x = false) -> filter f l = [].
Proof.
  induction l as [| x l IH]; intros Hf; [reflexivity|].
  cbn [filter]. rewrite (Hf x (or_introl eq_refl)).
  apply IH. intros y Hy. apply Hf. now right.
Qed.

(* ===================================================================== *)
(** ** Generating the test picture *)
(* ===================================================================== *)

Section Generation.

Context {codec : Codec}.

(** Saving the test picture in a directory without dotted entries adds
    one entry, and that entry is the only picture found afterwards. *)
Lemma save_test_pattern (w : World) (es : list (string * File))
      (test_img : Bitmap rgb) :
  imgs w = Some es -> writable w = true -> glob w any_dotted = [] ->
  let w' := set_imgs w (es ++ [("test_pattern.jpg"%string,
                                Some (jpeg test_img))]) in
  save_jpeg w "test_pattern.jpg" test_img = Ok w' /\
  image_files_of w' = ["test_pattern.jpg"%string] /\
  image_open w' "test_pattern.jpg" = Ok (jpeg test_img).
Proof.
  intros Himgs Hwr Hnone w'.
  assert (Hfresh : ~ In "test_pattern.jpg"%string (map fst es)).
  { intros Hin.
    assert (Hdot : In "test_pattern.jpg"%string (glob w any_dotted)).
    { apply in_glob. exists es. repeat split; auto. }
    rewrite Hnone in Hdot. destruct Hdot. }
  assert (Hold : forall ext name, In name (map fst es) ->
            negb (prefix "." name) && with_ext ext name = true ->
            ext = ".jpg"%string \/ ext = ".jpeg"%string
            \/ ext = ".png"%string -> False).
  { intros ext name Hin Hpass Hext.
    apply andb_true_iff in Hpass. destruct Hpass as [Hvis Hwith].
    apply negb_true_iff in Hvis.
    assert (Hdot : In name (glob w any_dotted)).
    { apply in_glob. exists es. repeat split; auto.
      apply found_is_dotted.
      destruct Hext as [-> | [-> | ->]]; auto. }
    rewrite Hnone in Hdot. destruct Hdot. }
  assert (Hglob : forall ext,
            ext = ".jpg"%string \/ ext = ".jpeg"%string
            \/ ext = ".png"%string ->
            glob w' (with_ext ext)
            = filter (fun name => negb (prefix "." name) && with_ext ext name)
                     ["test_pattern.jpg"%string]).
  { intros ext Hext. unfold glob, w'. cbn [imgs set_imgs].
    rewrite map_app, filter_app. cbn [map fst].
    rewrite filter_none; [reflexivity|].
    intros name Hin.
    destruct (negb (prefix "." name) && with_ext ext name) eqn:E;
      [| reflexivity].
    exfalso. exact (Hold ext name Hin E Hext). }
  split; [| split].
  - unfold save_jpeg. rewrite Himgs, Hwr.
    now rewrite (update_fresh _ _ es Hfresh).
  - unfold image_files_of.
    rewrite (Hglob ".jpg"%string), (Hglob ".jpeg"%string),
            (Hglob ".png"%string) by auto.
    reflexivity.
  - unfold image_open, w'. cbn [imgs set_imgs].
    rewrite <- (update_fresh _ _ es Hfresh). now rewrite lookup_update.
Qed.

(** What [auto_detect_directories] does when the test picture is needed
    and the disk accepts writes. *)
Lemma test_pattern_is_generated_aux (w : World) :
  writable w = true ->
  imgs_exists w = false \/ glob w any_dotted = [] ->
  exists w' test_img,
    test_pattern = Ok test_img /\
    auto_detect_directories w = Ok (w', Some "test_pattern.jpg"%string) /\
    imgs w' = Some ((match imgs w with Some es => es | None => [] end)
                      ++ [("test_pattern.jpg"%string, Some (jpeg test_img))]) /\
    assets w' = assets w /\ writable w' = true /\
    image_files_of w' = ["test_pattern.jpg"%string] /\
    image_open w' "test_pattern.jpg" = Ok (jpeg test_img).
Proof.
  intros Hwr Hneed.
  destruct test_pattern_spec as (test_img & Hpat & _).
  assert (Hgen : forall w0 es,
            imgs w0 = Some es -> writable w0 = true ->
            glob w0 any_dotted = [] ->
            generate_test_image w0
            = Ok (set_imgs w0 (es ++ [("test_pattern.jpg"%string,
                                       Some (jpeg test_img))]),
                  "test_pattern.jpg"%string)).
  { intros w0 es Himgs Hwr0 Hnone. unfold generate_test_image.
    rewrite Hpat. cbn [bind]. unfold makedirs_imgs. rewrite Himgs.
    cbn [bind].
    destruct (save_test_pattern w0 es test_img Himgs Hwr0 Hnone)
      as (-> & _). reflexivity. }
  unfold auto_detect_directories.
  destruct (imgs w) as [es |] eqn:Himgs.
  - assert (Hnone : glob w any_dotted = []).
    { destruct Hneed as [Hno | Hnone]; [| assumption].
      unfold imgs_exists in Hno. rewrite Himgs in Hno. discriminate Hno. }
    unfold imgs_exists. rewrite Himgs. cbn [negb]. rewrite Hnone.
    rewrite (Hgen w es Himgs Hwr Hnone). cbn [bind].
    destruct (save_test_pattern w es test_img Himgs Hwr Hnone)
      as (_ & Hfiles & Hopen).
    eexists. exists test_img.
    split; [exact Hpat|]. split; [reflexivity|].
    split; [reflexivity|]. split; [reflexivity|].
    split; [exact Hwr|]. split; [exact Hfiles | exact Hopen].
  - unfold imgs_exists. rewrite Himgs. cbn [negb].
    unfold makedirs_imgs. rewrite Himgs, Hwr. cbn [bind].
    assert (Himgs0 : imgs (set_imgs w []) = Some []) by reflexivity.
    assert (Hnone0 : glob (set_imgs w []) any_dotted = []) by reflexivity.
    rewrite (Hgen (set_imgs w []) [] Himgs0 Hwr Hnone0). cbn [bind].
    destruct (save_test_pattern (set_imgs w []) [] test_img Himgs0 Hwr Hnone0)
      as (_ & Hfiles & Hopen).
    eexists. exists test_img.
    split; [exact Hpat|]. split; [reflexivity|].
    split; [reflexivity|]. split; [reflexivity|].
    split; [exact Hwr|]. split; [exact Hfiles | exact Hopen].
Qed.

(** X8. On a writable disk, when [imgs] is missing or holds no visible
    dotted entry, [auto_detect_directories] saves the test picture as
    test_pattern.jpg after the entries already there, and touches nothing
    under [assets].  That file is then the one picture that [main] finds,
    and it decodes to what the JPEG codec makes of the test picture. *)
Theorem test_pattern_is_generated (w : World) :
  writable w = true ->
  imgs_exists w = false \/ glob w any_dotted = [] ->
  exists w' test_img,
    test_pattern = Ok test_img /\
    auto_detect_directories w = Ok (w', Some "test_pattern.jpg"%string) /\
    imgs w' = Some ((match imgs w with Some es => es | None => [] end)
                      ++ [("test_pattern.jpg"%string, Some (jpeg test_img))]) /\
    assets w' = assets w /\ writable w' = true /\
    image_files_of w' = ["test_pattern.jpg"%string] /\
    image_open w' "test_pattern.jpg" = Ok (jpeg test_img).
Proof. exact (test_pattern_is_generated_aux w). Qed.

End Generation.

Lemma test_pattern_is_generated_witness :
  (writable (mkWorld None [] true) = true /\
   (imgs_exists (mkWorld None [] true) = false
    \/ glob (mkWorld None [] true) any_dotted = [])) /\
  exists w' test_img,
    test_pattern = Ok test_img /\
    @auto_detect_directories Samples.nearest (mkWorld None [] true)
    = Ok (w', Some "test_pattern.jpg"%string) /\
    image_files_of w' = ["test_pattern.jpg"%string].
Proof.
  split; [split; [reflexivity | left; reflexivity]|].
  destruct (@test_pattern_is_generated Samples.nearest (mkWorld None [] true)
              eq_refl (or_introl eq_refl))
    as (w' & test_img & Hpat & Hauto & _ & _ & _ & Hfiles & _).
  exists w', test_img.
  split; [exact Hpat|]. split; [exact Hauto | exact Hfiles].
Defined.

(* ===================================================================== *)
(** ** One conversion *)
(* ===================================================================== *)

Section OneConversion.

Context {codec : Codec}.

Lemma raw_bytes_length (img : Image) (width height mode : Z) :
  honours_size -> 0 < width -> 0 < height -> 0 <= mode <= 7 ->
  exists data,
    raw_bytes img width height mode = Ok data /\
    Z.of_nat (List.length data) = width * height * 2.
Proof.
  intros Hc Hw Hh Hm.
  destruct (raw_bytes_scan img width height mode Hc Hw Hh Hm)
    as (b' & _ & Hraw).
  eexists. split; [exact Hraw|].
  rewrite length_flat_map_le16, length_map.
  pose proof (length_scan width height ltac:(lia) ltac:(lia)). lia.
Qed.

(** The world that a completed conversion leaves. *)
Lemma convert_to_raw_ok (w : World) (image_path output_path : string)
      (img : Image) (width height mode : Z) (data : list Z) :
  image_open w image_path = Ok img -> writable w = true ->
  raw_bytes img width height mode = Ok data ->
  convert_to_raw w image_path output_path width height mode
  = Ok (set_assets w (update output_path (Raw data)
                        (update output_path (Raw []) (assets w)))).
Proof.
  intros Hopen Hwr Hraw. unfold convert_to_raw, raw_bytes in *.
  rewrite Hopen. cbn [bind].
  destruct (prepare img width height) as [b' | e]; [| discriminate Hraw].
  cbn [bind] in *. unfold open_wb. rewrite Hwr. cbn [bind]. rewrite Hraw.
  reflexivity.
Qed.

(** A conversion that completes keeps [imgs] and the write permission. *)
Lemma convert_to_raw_keeps (w w' : World) (image_path output_path : string)
      (width height mode : Z) :
  convert_to_raw w image_path output_path width height mode = Ok w' ->
  imgs w' = imgs w /\ writable w' = writable w.
Proof.
  unfold convert_to_raw. intros H.
  destruct (image_open w image_path) as [img | e]; [| discriminate H].
  cbn [bind] in H.
  destruct (prepare img width height) as [b' | e]; [| discriminate H].
  cbn [bind] in H. unfold open_wb in H.
  destruct (writable w) eqn:Hwr; [| discriminate H]. cbn [bind] in H.
  destruct (write_pixels b' width height mode []) as [data | e];
    [| discriminate H].
  cbn [bind] in H. injection H as <-. split; [reflexivity | exact Hwr].
Qed.

(** [Image.open] fails with OSError or not at all. *)
Lemma image_open_cases (w : World) (name : string) :
  (exists img, image_open w name = Ok img)
  \/ image_open w name = Raise OSError.
Proof.
  unfold image_open. destruct (imgs w) as [es |]; [| now right].
  destruct (lookup name es) as [[img |] |]; [left; now exists img | | ];
    now right.
Qed.

Lemma image_open_same_imgs (w w' : World) (name : string) :
  imgs w' = imgs w -> image_open w' name = image_open w name.
Proof. intros H. unfold image_open. now rewrite H. Qed.

(** Preparation at a size of at least 1x1 never fails. *)
Lemma prepare_total (img : Image) (width height : Z) :
  0 < width -> 0 < height -> exists b', prepare img width height = Ok b'.
Proof.
  intros Hw Hh. unfold prepare, resize.
  destruct ((fst (bm_size (to_rgb img)) =? width)
            && (snd (bm_size (to_rgb img)) =? height)); [eexists; reflexivity|].
  destruct (Z.ltb_spec width 1); [lia|].
  destruct (Z.ltb_spec height 1); [lia|].
  eexists. reflexivity.
Qed.

End OneConversion.

(* ===================================================================== *)
(** ** Paths under assets *)
(* ===================================================================== *)

Lemma in_TEST_MODES (mode : Z) :
  In mode TEST_MODES <-> 0 <= mode <= 7.
Proof.
  unfold TEST_MODES. cbn [In]. lia.
Qed.

Ltac each_mode H :=
  apply in_TEST_MODES in H;
  let C := fresh "C" in
  match type of H with
  | 0 <= ?m <= 7 =>
      assert (C : m = 0 \/ m = 1 \/ m = 2 \/ m = 3 \/
                  m = 4 \/ m = 5 \/ m = 6 \/ m = 7) by lia;
      clear H;
      destruct C as [-> | [-> | [-> | [-> | [-> | [-> | [-> | ->]]]]]]]
  end.

(** A mode directory is 13 characters long; a raw path goes on with a
    slash. *)
Lemma mode_dir_end (mode : Z) :
  In mode TEST_MODES -> get 13 (mode_dir_of mode) = None.
Proof. intros H. each_mode H; reflexivity. Qed.

Lemma raw_path_slash (mode : Z) (name : string) :
  In mode TEST_MODES -> get 13 (raw_path_of mode name) = Some "/"%char.
Proof. intros H. each_mode H; reflexivity. Qed.

Lemma raw_path_not_dir (mode mode' : Z) (name : string) :
  In mode TEST_MODES -> In mode' TEST_MODES ->
  raw_path_of mode name <> mode_dir_of mode'.
Proof.
  intros Hm Hm' Heq. apply (f_equal (get 13)) in Heq.
  rewrite raw_path_slash, mode_dir_end in Heq by assumption.
  discriminate Heq.
Qed.

(** The digit of the mode is the 13th character of a raw path. *)
Lemma raw_path_mode (mode mode' : Z) (name name' : string) :
  In mode TEST_MODES -> In mode' TEST_MODES ->
  raw_path_of mode name = raw_path_of mode' name' -> mode = mode'.
Proof.
  intros Hm Hm' Heq. apply (f_equal (get 12)) in Heq.
  each_mode Hm; each_mode Hm';
    first [reflexivity | exfalso; vm_compute in Heq; discriminate Heq].
Qed.

Lemma how_to_use_not_raw (mode : Z) (name : string) :
  In mode TEST_MODES ->
  raw_path_of mode name <> "assets/HOW_TO_USE.txt"%string.
Proof.
  intros Hm Heq. apply (f_equal (get 7)) in Heq.
  each_mode Hm; vm_compute in Heq; discriminate Heq.
Qed.

Lemma how_to_use_not_dir (mode : Z) :
  In mode TEST_MODES ->
  mode_dir_of mode <> "assets/HOW_TO_USE.txt"%string.
Proof.
  intros Hm Heq. apply (f_equal (get 7)) in Heq.
  each_mode Hm; vm_compute in Heq; discriminate Heq.
Qed.

(* ===================================================================== *)
(** ** The conversion loops *)
(* ===================================================================== *)

(** A loop fails when the body fails on one of its elements, the earlier
    steps keeping what that failure depends on. *)
Lemma for_each_raises {A S : Type} (P : S -> Prop) (xs : list A)
      (body : A -> S -> result S) (x : A) :
  In x xs ->
  (forall y s s', P s -> body y s = Ok s' -> P s') ->
  (forall s, P s -> exists e, body x s = Raise e) ->
  forall s, P s -> exists e, for_each xs body s = Raise e.
Proof.
  intros Hin Hkeep Hfail. induction xs as [| y xs IH]; [destruct Hin|].
  intros s Hs. cbn [for_each].
  destruct (body y s) as [s' | e] eqn:Hy.
  - cbn [bind]. destruct Hin as [-> | Hin].
    + destruct (Hfail s Hs) as [e He]. rewrite He in Hy. discriminate Hy.
    + apply (IH Hin). exact (Hkeep y s s' Hs Hy).
  - now exists e.
Qed.

Lemma makedirs_out_keeps (w w' : World) (dir : string) :
  makedirs_out w dir = Ok w' ->
  imgs w' = imgs w /\ writable w' = writable w.
Proof.
  unfold makedirs_out. intros H.
  destruct (lookup dir (assets w)) as [[| data |] |];
    try discriminate H.
  - injection H as <-. split; reflexivity.
  - destruct (writable w) eqn:E; [| discriminate H].
    injection H as <-. split; [reflexivity | exact E].
Qed.

Section Run.

Context {codec : Codec}.

Variable w0 : World.
Variable files : list string.

(** An update at a raw path of mode [m] keeps every conversion recorded
    so far, and records the one it makes. *)
Lemma converted_after_conversion (a : list (string * Content))
      (m : Z) (x : string) (img : Image) (data : list Z) :
  In m TEST_MODES -> In x files ->
  image_open w0 x = Ok img ->
  raw_bytes img SCREEN_WIDTH SCREEN_HEIGHT m = Ok data ->
  let a' := update (raw_path_of m x) (Raw data)
                   (update (raw_path_of m x) (Raw []) a) in
  converted w0 files a' m x /\
  forall m' n', In m' TEST_MODES ->
                converted w0 files a m' n' -> converted w0 files a' m' n'.
Proof.
  intros Hm Hx Hopen Hraw a'. split.
  - exists x, img, data. repeat split; try assumption.
    unfold a'. apply lookup_update.
  - intros m' n' Hm' (n0 & img0 & data0 & Hn0 & Hpath & Hopen0 & Hraw0 & Hl).
    destruct (String.eqb_spec (raw_path_of m' n') (raw_path_of m x))
      as [Heq | Hne].
    + assert (m' = m) by (eapply raw_path_mode; eauto). subst m'.
      exists x, img, data. repeat split; try assumption.
      * now symmetry.
      * rewrite Heq. unfold a'. apply lookup_update.
    + exists n0, img0, data0. repeat split; try assumption.
      unfold a'. now rewrite !lookup_update_other by assumption.
Qed.

Lemma converted_after_mkdir (a : list (string * Content)) (m m' : Z)
      (n' : string) :
  In m TEST_MODES -> In m' TEST_MODES ->
  converted w0 files a m' n' ->
  converted w0 files (update (mode_dir_of m) Directory a) m' n'.
Proof.
  intros Hm Hm' (n0 & img0 & data0 & Hn0 & Hpath & Hopen0 & Hraw0 & Hl).
  exists n0, img0, data0. repeat split; try assumption.
  rewrite lookup_update_other; [assumption|].
  now apply raw_path_not_dir.
Qed.

Lemma mode_tree_update (size : Z) (a : list (string * Content))
      (path : string) (c : Content) :
  mode_tree size a ->
  (c = Directory /\ exists mode, In mode TEST_MODES /\ path = mode_dir_of mode)
  \/ (exists mode name data,
         In mode TEST_MODES /\ path = raw_path_of mode name /\
         c = Raw data /\ Z.of_nat (List.length data) = size) ->
  mode_tree size (update path c a).
Proof.
  intros Htree Hnew path' c' Hl.
  destruct (String.eqb_spec path' path) as [-> | Hne].
  - rewrite lookup_update in Hl. injection Hl as <-. exact Hnew.
  - rewrite lookup_update_other in Hl by assumption. now apply Htree.
Qed.

(** Creating the directory of a mode succeeds in every state of the
    run. *)
Lemma makedirs_out_run (s : World) (m : Z) :
  run_state w0 s -> In m TEST_MODES ->
  exists s',
    makedirs_out s (mode_dir_of m) = Ok s' /\ run_state w0 s' /\
    forall m' n', In m' TEST_MODES ->
                  converted w0 files (assets s) m' n' ->
                  converted w0 files (assets s') m' n'.
Proof.
  intros (Hwr & Himgs & Htree) Hm. unfold makedirs_out.
  destruct (lookup (mode_dir_of m) (assets s)) as [c |] eqn:Hl.
  - destruct (Htree _ _ Hl) as [(-> & _) | (m' & n' & data & Hm' & Hp & _)].
    + exists s. split; [reflexivity|]. split; [now repeat split | auto].
    + exfalso. symmetry in Hp. revert Hp. now apply raw_path_not_dir.
  - rewrite Hwr. eexists. split; [reflexivity|]. split.
    + split; [exact Hwr|]. split; [exact Himgs|]. cbn [assets set_assets].
      apply mode_tree_update; [assumption|]. left. split; [reflexivity|].
      now exists m.
    + intros m' n' Hm' Hconv. cbn [assets set_assets].
      now apply converted_after_mkdir.
Qed.

Hypothesis Hc : honours_size.
Hypothesis Hdecode :
  forall name, In name files -> exists img, image_open w0 name = Ok img.

(** Converting one found picture succeeds in every state of the run. *)
Lemma convert_to_raw_run (s : World) (m : Z) (x : string) :
  run_state w0 s -> In m TEST_MODES -> In x files ->
  exists s',
    convert_to_raw s x (raw_path_of m x) SCREEN_WIDTH SCREEN_HEIGHT m = Ok s' /\
    run_state w0 s' /\
    converted w0 files (assets s') m x /\
    forall m' n', In m' TEST_MODES ->
                  converted w0 files (assets s) m' n' ->
                  converted w0 files (assets s') m' n'.
Proof.
  intros (Hwr & Himgs & Htree) Hm Hx.
  destruct (Hdecode x Hx) as (img & Hopen).
  assert (Hmode : 0 <= m <= 7) by now apply in_TEST_MODES.
  destruct (raw_bytes_length img SCREEN_WIDTH SCREEN_HEIGHT m Hc
              ltac:(reflexivity) ltac:(reflexivity) Hmode)
    as (data & Hraw & Hlen).
  assert (Hopen' : image_open s x = Ok img)
    by (rewrite (image_open_same_imgs w0 s x Himgs); exact Hopen).
  rewrite (convert_to_raw_ok s x (raw_path_of m x) img _ _ m data
             Hopen' Hwr Hraw).
  destruct (converted_after_conversion (assets s) m x img data
              Hm Hx Hopen Hraw) as (Hnew & Hold).
  eexists. split; [reflexivity|]. cbn [assets set_assets].
  split; [| split; [exact Hnew | exact Hold]].
  split; [exact Hwr|]. split; [exact Himgs|]. cbn [assets set_assets].
  assert (Hentry : forall d, Z.of_nat (List.length d)
                             = SCREEN_WIDTH * SCREEN_HEIGHT * 2 ->
            (Raw d = Directory /\
             exists mode, In mode TEST_MODES /\
                          raw_path_of m x = mode_dir_of mode)
            \/ (exists mode name data0,
                   In mode TEST_MODES /\
                   raw_path_of m x = raw_path_of mode name /\
                   Raw d = Raw data0 /\
                   Z.of_nat (List.length data0)
                   = SCREEN_WIDTH * SCREEN_HEIGHT * 2)).
  { intros d Hd. right. exists m, x, d. auto. }
  intros path c Hl.
  destruct (String.eqb_spec path (raw_path_of m x)) as [-> | Hne].
  - rewrite lookup_update in Hl. injection Hl as <-. now apply Hentry.
  - rewrite !lookup_update_other in Hl by assumption. now apply Htree.
Qed.

(** The inner loop of [convert_all] converts every found picture. *)
Lemma convert_mode_run (s : World) (m : Z) :
  run_state w0 s -> In m TEST_MODES ->
  exists s',
    for_each files
      (fun img_path w =>
         let filename := img_path in
         let raw_path :=
           (mode_dir_of m ++ "/" ++ splitext_root filename ++ ".raw")%string in
         convert_to_raw w img_path raw_path SCREEN_WIDTH SCREEN_HEIGHT m) s
    = Ok s' /\
    run_state w0 s' /\
    (forall n, In n files -> converted w0 files (assets s') m n) /\
    forall m' n', In m' TEST_MODES ->
                  converted w0 files (assets s) m' n' ->
                  converted w0 files (assets s') m' n'.
Proof.
  intros Hs Hm.
  pose (P := fun (done : list string) (t : World) =>
               run_state w0 t /\
               (forall n, In n done -> converted w0 files (assets t) m n) /\
               forall m' n', In m' TEST_MODES ->
                             converted w0 files (assets s) m' n' ->
                             converted w0 files (assets t) m' n').
  destruct (for_each_prefix_invariant P files
              (fun img_path w =>
                 let filename := img_path in
                 let raw_path :=
                   (mode_dir_of m ++ "/" ++ splitext_root filename
                      ++ ".raw")%string in
                 convert_to_raw w img_path raw_path
                                SCREEN_WIDTH SCREEN_HEIGHT m)) with (s := s)
    as (s' & Hrun & Hs' & Hdone & Hold).
  - intros done x t (rest & Hsplit) (Ht & Hdone & Hold).
    assert (Hx : In x files)
      by (rewrite Hsplit; apply in_or_app; right; now left).
    destruct (convert_to_raw_run t m x Ht Hm Hx)
      as (t' & Hconv & Ht' & Hnew & Hkeep).
    exists t'. split; [exact Hconv|]. split; [exact Ht'|]. split.
    + intros n Hn. apply in_app_or in Hn. destruct Hn as [Hn | [<- | []]].
      * apply Hkeep; [assumption|]. now apply Hdone.
      * exact Hnew.
    + intros m' n' Hm' Hconv'. apply Hkeep; [assumption|]. now apply Hold.
  - unfold P. split; [exact Hs|]. split; [intros n [] | auto].
  - exists s'. auto.
Qed.

(** The loops of [convert_all] complete and convert every found picture
    in every mode. *)
Lemma convert_all_run (s : World) :
  run_state w0 s ->
  exists s',
    convert_all files s = Ok s' /\ run_state w0 s' /\
    forall m n, In m TEST_MODES -> In n files ->
                converted w0 files (assets s') m n.
Proof.
  intros Hs.
  pose (P := fun (done : list Z) (t : World) =>
               run_state w0 t /\
               forall m n, In m done -> In n files ->
                           converted w0 files (assets t) m n).
  unfold convert_all.
  destruct (for_each_prefix_invariant P TEST_MODES
              (fun mode w =>
                 let mode_dir := mode_dir_of mode in
                 w <- makedirs_out w mode_dir ;;
                 for_each files
                   (fun img_path w =>
                      let filename := img_path in
                      let raw_path :=
                        (mode_dir ++ "/" ++ splitext_root filename
                           ++ ".raw")%string in
                      convert_to_raw w img_path raw_path
                                     SCREEN_WIDTH SCREEN_HEIGHT mode) w))
    with (s := s) as (s' & Hrun & Hs' & Hall).
  - intros done m t (rest & Hsplit) (Ht & Hdone).
    assert (Hm : In m TEST_MODES)
      by (rewrite Hsplit; apply in_or_app; right; now left).
    assert (Hsub : forall m', In m' done -> In m' TEST_MODES)
      by (intros m' Hm'; rewrite Hsplit; apply in_or_app; now left).
    destruct (makedirs_out_run t m Ht Hm) as (t1 & Hmk & Ht1 & Hkeep1).
    destruct (convert_mode_run t1 m Ht1 Hm)
      as (t2 & Hloop & Ht2 & Hnew & Hkeep2).
    exists t2. split; [| split; [exact Ht2|]].
    + cbv zeta. rewrite Hmk. cbn [bind]. exact Hloop.
    + intros m' n Hm' Hn. apply in_app_or in Hm'.
      destruct Hm' as [Hm' | [<- | []]].
      * apply Hkeep2; [now apply Hsub|]. apply Hkeep1; [now apply Hsub|].
        now apply Hdone.
      * now apply Hnew.
  - unfold P. split; [exact Hs | intros m n []].
  - exists s'. auto.
Qed.

End Run.

(* ===================================================================== *)
(** ** Whole runs *)
(* ===================================================================== *)

Section WholeRun.

Context {codec : Codec}.

(** [main] past the early return, when pictures are found. *)
Lemma main_with_pictures (w : World) :
  image_files_of w <> [] ->
  main w
  = (w1 <- convert_all (image_files_of w) (rmtree_assets w) ;;
     w2 <- open_wb w1 "assets/HOW_TO_USE.txt" ;;
     Ok (store w2 "assets/HOW_TO_USE.txt" HowToUse)).
Proof.
  intros Hfound. unfold main.
  rewrite (auto_detect_with_pictures w Hfound). cbn [bind].
  change (glob w (with_ext ".jpg") ++ glob w (with_ext ".jpeg")
            ++ glob w (with_ext ".png"))%list with (image_files_of w).
  destruct (image_files_of w); [contradiction | reflexivity].
Qed.

(** A run that finds pictures which all decode, on a writable disk:
    where it ends. *)
Lemma main_completes (w : World) :
  honours_size -> writable w = true -> image_files_of w <> [] ->
  (forall name, In name (image_files_of w) ->
                exists img, image_open w name = Ok img) ->
  exists s,
    main w = Ok (set_assets s
                   (update "assets/HOW_TO_USE.txt" HowToUse
                      (update "assets/HOW_TO_USE.txt" (Raw []) (assets s)))) /\
    run_state w s /\
    forall m n, In m TEST_MODES -> In n (image_files_of w) ->
                converted w (image_files_of w) (assets s) m n.
Proof.
  intros Hc Hwr Hfound Hdecode.
  assert (Hstart : run_state w (rmtree_assets w)).
  { unfold rmtree_assets. rewrite Hwr. split; [exact Hwr|].
    split; [reflexivity|]. intros path c Hl. discriminate Hl. }
  destruct (convert_all_run w (image_files_of w) Hc Hdecode
              (rmtree_assets w) Hstart) as (s & Hall & Hs & Hconv).
  exists s. split; [| split; assumption].
  rewrite (main_with_pictures w Hfound), Hall. cbn [bind].
  unfold open_wb. destruct Hs as (Hwr' & _). rewrite Hwr'. reflexivity.
Qed.

(** X10. A run that finds pictures which all decode, on a writable disk
    (the resampler returning pictures of the requested size), completes
    with exit status 0 and leaves [imgs] as it was.  For each of the 8
    modes and each found picture, the raw path of the picture holds
    240 * 240 * 2 = 115200 bytes: the bytes of a found picture with that
    raw path, in that mode (the picture itself when no other found
    picture shares its stem).  The instructions file is written last. *)
Theorem run_with_pictures_succeeds (w : World) :
  honours_size -> writable w = true -> image_files_of w <> [] ->
  (forall name, In name (image_files_of w) ->
                exists img, image_open w name = Ok img) ->
  exists w',
    main w = Ok w' /\ run w = 0 /\ imgs w' = imgs w /\
    lookup "assets/HOW_TO_USE.txt" (assets w') = Some HowToUse /\
    forall mode name, In mode TEST_MODES -> In name (image_files_of w) ->
      exists data name' img,
        lookup (raw_path_of mode name) (assets w') = Some (Raw data) /\
        Z.of_nat (List.length data) = 115200 /\
        In name' (image_files_of w) /\
        raw_path_of mode name' = raw_path_of mode name /\
        image_open w name' = Ok img /\
        raw_bytes img 240 240 mode = Ok data.
Proof.
  intros Hc Hwr Hfound Hdecode.
  destruct (main_completes w Hc Hwr Hfound Hdecode)
    as (s & Hmain & (Hwr' & Himgs & Htree) & Hconv).
  eexists. split; [exact Hmain|].
  split; [unfold run; now rewrite Hmain|].
  cbn [imgs assets set_assets]. split; [exact Himgs|].
  split; [apply lookup_update|].
  intros mode name Hmode Hname.
  destruct (Hconv mode name Hmode Hname)
    as (name' & img & data & Hin & Hpath & Hopen & Hraw & Hl).
  exists data, name', img.
  split.
  { rewrite !lookup_update_other by (now apply how_to_use_not_raw).
    exact Hl. }
  split.
  { destruct (Htree _ _ Hl) as [(Hdir & _) | (m0 & n0 & d0 & _ & _ & Hd & Hlen)].
    - discriminate Hdir.
    - injection Hd as <-. exact Hlen. }
  repeat split; assumption.
Qed.

(** X11. After such a run nothing else is left under [assets], whatever
    it held before: every path is the instructions file, the directory of
    a mode, or a raw file of 115200 bytes in the directory of a mode. *)
Theorem run_leaves_no_stale_file (w : World) :
  honours_size -> writable w = true -> image_files_of w <> [] ->
  (forall name, In name (image_files_of w) ->
                exists img, image_open w name = Ok img) ->
  exists w',
    main w = Ok w' /\
    forall path c,
      lookup path (assets w') = Some c ->
      (path = "assets/HOW_TO_USE.txt"%string /\ c = HowToUse)
      \/ (c = Directory /\
          exists mode, In mode TEST_MODES /\ path = mode_dir_of mode)
      \/ (exists mode name data,
             In mode TEST_MODES /\ path = raw_path_of mode name /\
             c = Raw data /\ Z.of_nat (List.length data) = 115200).
Proof.
  intros Hc Hwr Hfound Hdecode.
  destruct (main_completes w Hc Hwr Hfound Hdecode)
    as (s & Hmain & (Hwr' & Himgs & Htree) & Hconv).
  eexists. split; [exact Hmain|].
  cbn [assets set_assets]. intros path c Hl.
  destruct (String.eqb_spec path "assets/HOW_TO_USE.txt") as [-> | Hne].
  - left. rewrite lookup_update in Hl. injection Hl as <-. now split.
  - right. rewrite !lookup_update_other in Hl by assumption.
    exact (Htree path c Hl).
Qed.

(** X12. One found picture that does not decode fails the whole run:
    [main] raises and the exit status is 1. *)
Theorem undecodable_picture_fails_run (w : World) (name : string) :
  In name (image_files_of w) -> image_open w name = Raise OSError ->
  exists e, main w = Raise e /\ run w = 1.
Proof.
  intros Hin Hbad.
  assert (Hfound : image_files_of w <> [])
    by (intros Hnil; rewrite Hnil in Hin; destruct Hin).
  assert (Hraise : exists e, convert_all (image_files_of w) (rmtree_assets w)
                             = Raise e).
  { unfold convert_all, TEST_MODES. cbn [for_each]. cbv zeta.
    destruct (makedirs_out (rmtree_assets w) (mode_dir_of 0))
      as [w1 | e] eqn:Hmk; [| now exists e].
    cbn [bind].
    assert (Himgs1 : imgs w1 = imgs w).
    { destruct (makedirs_out_keeps _ _ _ Hmk) as (-> & _).
      unfold rmtree_assets. now destruct (writable w). }
    destruct (for_each_raises (fun s => imgs s = imgs w) (image_files_of w)
                (fun img_path w2 =>
                   convert_to_raw w2 img_path
                     (mode_dir_of 0 ++ "/" ++ splitext_root img_path
                        ++ ".raw")%string
                     SCREEN_WIDTH SCREEN_HEIGHT 0) name Hin) with (s := w1)
      as (e & He).
    - intros y s s' Hs Hy.
      destruct (convert_to_raw_keeps _ _ _ _ _ _ _ Hy) as (-> & _).
      exact Hs.
    - intros s Hs. exists OSError. unfold convert_to_raw.
      now rewrite (image_open_same_imgs w s name Hs), Hbad.
    - exact Himgs1.
    - rewrite He. now exists e. }
  destruct Hraise as (e & He). exists e.
  assert (Hmain : main w = Raise e)
    by (rewrite (main_with_pictures w Hfound), He; reflexivity).
  split; [exact Hmain|]. unfold run. now rewrite Hmain.
Qed.

(** X13. On a disk that refuses writes, a run that finds pictures fails
    with OSError, whatever [assets] holds and whether or not the pictures
    decode: the first output file cannot be opened. *)
Theorem read_only_disk_fails_run (w : World) :
  writable w = false -> image_files_of w <> [] ->
  main w = Raise OSError /\ run w = 1.
Proof.
  intros Hro Hfound.
  assert (Hmain : main w = Raise OSError).
  { rewrite (main_with_pictures w Hfound).
    unfold rmtree_assets. rewrite Hro.
    destruct (image_files_of w) as [| x rest]; [contradiction|].
    unfold convert_all, TEST_MODES. cbn [for_each]. cbv zeta.
    unfold makedirs_out at 1. rewrite Hro.
    destruct (lookup (mode_dir_of 0) (assets w)) as [[| data |] |];
      try reflexivity.
    cbn [bind for_each]. unfold convert_to_raw at 1.
    destruct (image_open_cases w x) as [(img & ->) | ->]; [| reflexivity].
    cbn [bind].
    destruct (prepare_total img SCREEN_WIDTH SCREEN_HEIGHT
                ltac:(reflexivity) ltac:(reflexivity)) as (b' & ->).
    cbn [bind]. unfold open_wb. rewrite Hro. reflexivity. }
  split; [exact Hmain|]. unfold run. now rewrite Hmain.
Qed.

End WholeRun.

Lemma nearest_honours_size : @honours_size Samples.nearest.
Proof. intros b width height _ _. reflexivity. Qed.

Lemma one_picture_decodes :
  forall name, In name (image_files_of Samples.one_picture) ->
               exists img, image_open Samples.one_picture name = Ok img.
Proof.
  intros name Hin. vm_compute in Hin. destruct Hin as [<- | []].
  exists Samples.red_2x1. reflexivity.
Qed.

Lemma run_with_pictures_succeeds_witness :
  (@honours_size Samples.nearest /\
   writable Samples.one_picture = true /\
   image_files_of Samples.one_picture <> []) /\
  exists w',
    @main Samples.nearest Samples.one_picture = Ok w' /\
    @run Samples.nearest Samples.one_picture = 0 /\
    lookup "assets/HOW_TO_USE.txt" (assets w') = Some HowToUse.
Proof.
  assert (Hfound : image_files_of Samples.one_picture <> [])
    by (intros H; discriminate H).
  split; [split; [exact nearest_honours_size | split; [reflexivity | exact Hfound]]|].
  destruct (@run_with_pictures_succeeds Samples.nearest Samples.one_picture
              nearest_honours_size eq_refl Hfound one_picture_decodes)
    as (w' & Hmain & Hrun & _ & Hhow & _).
  exists w'. split; [exact Hmain|]. split; [exact Hrun | exact Hhow].
Defined.

Lemma run_leaves_no_stale_file_witness :
  (@honours_size Samples.nearest /\
   writable Samples.one_picture = true /\
   image_files_of Samples.one_picture <> []) /\
  exists w',
    @main Samples.nearest Samples.one_picture = Ok w' /\
    forall path c,
      lookup path (assets w') = Some c ->
      (path = "assets/HOW_TO_USE.txt"%string /\ c = HowToUse)
      \/ (c = Directory /\
          exists mode, In mode TEST_MODES /\ path = mode_dir_of mode)
      \/ (exists mode name data,
             In mode TEST_MODES /\ path = raw_path_of mode name /\
             c = Raw data /\ Z.of_nat (List.length data) = 115200).
Proof.
  assert (Hfound : image_files_of Samples.one_picture <> [])
    by (intros H; discriminate H).
  split; [split; [exact nearest_honours_size | split; [reflexivity | exact Hfound]]|].
  exact (@run_leaves_no_stale_file Samples.nearest Samples.one_picture
           nearest_honours_size eq_refl Hfound one_picture_decodes).
Defined.

Lemma undecodable_picture_fails_run_witness :
  (In "broken.jpg"%string (image_files_of Samples.broken_picture) /\
   image_open Samples.broken_picture "broken.jpg" = Raise OSError) /\
  exists e, @main Samples.nearest Samples.broken_picture = Raise e /\
            @run Samples.nearest Samples.broken_picture = 1.
Proof.
  assert (Hin : In "broken.jpg"%string (image_files_of Samples.broken_picture))
    by (left; reflexivity).
  split; [split; [exact Hin | reflexivity]|].
  exact (@undecodable_picture_fails_run Samples.nearest
           Samples.broken_picture "broken.jpg" Hin eq_refl).
Defined.

Lemma read_only_disk_fails_run_witness :
  (writable Samples.read_only_picture = false /\
   image_files_of Samples.read_only_picture <> []) /\
  @main Samples.nearest Samples.read_only_picture = Raise OSError /\
  @run Samples.nearest Samples.read_only_picture = 1.
Proof.
  assert (Hfound : image_files_of Samples.read_only_picture <> [])
    by (intros H; discriminate H).
  split; [split; [reflexivity | exact Hfound]|].
  exact (@read_only_disk_fails_run Samples.nearest
           Samples.read_only_picture eq_refl Hfound).
Defined.

(* ===================================================================== *)
(** ** A run on an empty project *)
(* ===================================================================== *)

Section EmptyProject.

Context {codec : Codec}.

(** X14. On a writable disk, when [imgs] is missing or holds no visible
    dotted entry (the resampler returning pictures of the requested
    size), the run does not stop at "No images found": it generates the
    test picture, converts it in the 8 modes and completes with exit
    status 0.  Each mode directory then holds test_pattern.raw, 115200
    bytes long, and [imgs] holds test_pattern.jpg after its earlier
    entries. *)
Theorem run_on_empty_project_converts_test_pattern (w : World) :
  honours_size -> writable w = true ->
  imgs_exists w = false \/ glob w any_dotted = [] ->
  exists w' test_img,
    main w = Ok w' /\ run w = 0 /\
    test_pattern = Ok test_img /\
    imgs w' = Some ((match imgs w with Some es => es | None => [] end)
                      ++ [("test_pattern.jpg"%string, Some (jpeg test_img))]) /\
    lookup "assets/HOW_TO_USE.txt" (assets w') = Some HowToUse /\
    forall mode, In mode TEST_MODES ->
      exists data,
        lookup (mode_dir_of mode ++ "/test_pattern.raw")%string (assets w')
        = Some (Raw data) /\
        Z.of_nat (List.length data) = 115200 /\
        raw_bytes (jpeg test_img) 240 240 mode = Ok data.
Proof.
  intros Hc Hwr Hneed.
  destruct (test_pattern_is_generated_aux w Hwr Hneed)
    as (w1 & test_img & Hpat & Hauto & Himgs1 & _ & Hwr1 & Hfiles & Hopen).
  assert (Hfound : image_files_of w1 <> [])
    by (rewrite Hfiles; intros Hnil; discriminate Hnil).
  assert (Hdecode : forall name, In name (image_files_of w1) ->
                                 exists img, image_open w1 name = Ok img).
  { intros name Hin. rewrite Hfiles in Hin. destruct Hin as [<- | []].
    now exists (jpeg test_img). }
  assert (Hsame : main w = main w1).
  { rewrite (main_with_pictures w1 Hfound). unfold main.
    rewrite Hauto. cbn [bind].
    change (glob w1 (with_ext ".jpg") ++ glob w1 (with_ext ".jpeg")
              ++ glob w1 (with_ext ".png"))%list with (image_files_of w1).
    destruct (image_files_of w1); [contradiction | reflexivity]. }
  destruct (main_completes w1 Hc Hwr1 Hfound Hdecode)
    as (s & Hmain & (Hwr' & Himgs & Htree) & Hconv).
  eexists. exists test_img.
  split; [rewrite Hsame; exact Hmain|].
  split; [unfold run; rewrite Hsame, Hmain; reflexivity|].
  split; [exact Hpat|]. cbn [imgs assets set_assets].
  split; [rewrite Himgs; exact Himgs1|].
  split; [apply lookup_update|].
  intros mode Hmode.
  assert (Hin : In "test_pattern.jpg"%string (image_files_of w1))
    by (rewrite Hfiles; now left).
  destruct (Hconv mode _ Hmode Hin)
    as (name' & img & data & Hin' & _ & Hopen' & Hraw & Hl).
  rewrite Hfiles in Hin'. destruct Hin' as [<- | []].
  rewrite Hopen in Hopen'. injection Hopen' as <-.
  assert (Hpath : raw_path_of mode "test_pattern.jpg"
                  = (mode_dir_of mode ++ "/test_pattern.raw")%string)
    by reflexivity.
  rewrite Hpath in Hl.
  exists data. split; [| split].
  - rewrite !lookup_update_other; [exact Hl | |];
      rewrite <- Hpath; now apply how_to_use_not_raw.
  - destruct (Htree _ _ Hl)
      as [(Hdir & _) | (m0 & n0 & d0 & _ & _ & Hd & Hlen)].
    + discriminate Hdir.
    + injection Hd as <-. exact Hlen.
  - exact Hraw.
Qed.

End EmptyProject.

Lemma run_on_empty_project_converts_test_pattern_witness :
  (@honours_size Samples.nearest /\
   writable Samples.fresh_project = true /\
   (imgs_exists Samples.fresh_project = false
    \/ glob Samples.fresh_project any_dotted = [])) /\
  exists w',
    @main Samples.nearest Samples.fresh_project = Ok w' /\
    @run Samples.nearest Samples.fresh_project = 0 /\
    lookup "assets/HOW_TO_USE.txt" (assets w') = Some HowToUse.
Proof.
  split; [split; [exact nearest_honours_size
                 | split; [reflexivity | left; reflexivity]]|].
  destruct (@run_on_empty_project_converts_test_pattern Samples.nearest
              Samples.fresh_project nearest_honours_size eq_refl
              (or_introl eq_refl))
    as (w' & test_img & Hmain & Hrun & _ & _ & Hhow & _).
  exists w'. split; [exact Hmain|]. split; [exact Hrun | exact Hhow].
Defined.

(* ===================================================================== *)
(** ** Each picture once *)
(* ===================================================================== *)

Lemma substring_skip_append (s t : string) (i k : nat) :
  substring (String.length s + i) k (s ++ t) = substring i k t.
Proof. induction s as [| c s IH]; cbn; [reflexivity | exact IH]. Qed.

(** What [with_ext] reads: the last characters of the name. *)
Lemma with_ext_append (ext stem tail : string) :
  (String.length ext <= String.length tail)%nat ->
  with_ext ext (stem ++ tail) = with_ext ext tail.
Proof.
  intros Hlen. unfold with_ext. rewrite length_append.
  replace (String.length stem + String.length tail - String.length ext)%nat
    with (String.length stem + (String.length tail - String.length ext))%nat
    by lia.
  rewrite substring_skip_append.
  destruct (Nat.leb_spec (String.length ext) (String.length tail));
    [| lia].
  destruct (Nat.leb_spec (String.length ext)
              (String.length stem + String.length tail)); [reflexivity | lia].
Qed.

(** No name carries two of the three extensions. *)
Lemma extensions_exclusive (name : string) :
  (with_ext ".jpg" name = true -> with_ext ".jpeg" name = false) /\
  (with_ext ".jpg" name = true -> with_ext ".png" name = false) /\
  (with_ext ".jpeg" name = true -> with_ext ".png" name = false).
Proof.
  split; [| split]; intros H.
  - destruct (with_ext ".jpeg" name) eqn:E; [| reflexivity].
    apply with_ext_iff in E. destruct E as (stem & ->).
    rewrite with_ext_append in H by (cbn; lia). discriminate H.
  - apply with_ext_iff in H. destruct H as (stem & ->).
    now rewrite with_ext_append by (cbn; lia).
  - apply with_ext_iff in H. destruct H as (stem & ->).
    now rewrite with_ext_append by (cbn; lia).
Qed.

(** X15. When the entries of [imgs] have distinct names, the list of
    pictures that [main] converts has no repetition, and it holds exactly
    the visible entries that end in .jpg, .jpeg or .png (letter case
    counting, as on a POSIX file system): each of them is converted once
    per mode, and hidden files and other extensions are never
    converted. *)
Theorem pictures_listed_once (w : World) (es : list (string * File)) :
  imgs w = Some es -> NoDup (map fst es) ->
  NoDup (image_files_of w) /\
  forall name,
    In name (image_files_of w) <->
    In name (map fst es) /\ prefix "." name = false /\
    (with_ext ".jpg" name = true \/ with_ext ".jpeg" name = true
     \/ with_ext ".png" name = true).
Proof.
  intros Himgs Hnd. split.
  - unfold image_files_of, glob. rewrite Himgs.
    assert (Hpass : forall ext name,
              In name (filter (fun n => negb (prefix "." n) && with_ext ext n)
                              (map fst es)) -> with_ext ext name = true).
    { intros ext name Hin. apply filter_In in Hin.
      destruct Hin as (_ & Hin). apply andb_true_iff in Hin. tauto. }
    apply NoDup_app; [now apply NoDup_filter | |].
    + apply NoDup_app; [now apply NoDup_filter | now apply NoDup_filter |].
      intros name Hjpeg Hpng. apply Hpass in Hjpeg, Hpng.
      destruct (extensions_exclusive name) as (_ & _ & Hex).
      rewrite (Hex Hjpeg) in Hpng. discriminate Hpng.
    + intros name Hjpg Hother. apply Hpass in Hjpg.
      destruct (extensions_exclusive name) as (Hex1 & Hex2 & _).
      apply in_app_or in Hother. destruct Hother as [Hin | Hin];
        apply Hpass in Hin.
      * rewrite (Hex1 Hjpg) in Hin. discriminate Hin.
      * rewrite (Hex2 Hjpg) in Hin. discriminate Hin.
  - intros name. rewrite in_image_files. split.
    + intros (es' & Heq & Hin & Hvis & Hext).
      rewrite Himgs in Heq. injection Heq as <-. auto.
    + intros (Hin & Hvis & Hext). exists es. auto.
Qed.

Lemma mixed_directory_names_distinct :
  NoDup ["b.png"; "a.jpeg"; ".hidden.png"; "notes.txt"; "a.jpg"; "c.JPG";
         "README"]%string.
Proof.
  repeat (constructor;
          [cbn [In]; intros H;
           repeat (destruct H as [H | H]; [discriminate H|]); exact H|]).
  constructor.
Qed.

Lemma pictures_listed_once_witness :
  (imgs Samples.mixed_directory
   = Some [("b.png"%string, Some Samples.red_2x1);
           ("a.jpeg"%string, Some Samples.red_2x1);
           (".hidden.png"%string, Some Samples.red_2x1);
           ("notes.txt"%string, None);
           ("a.jpg"%string, Some Samples.red_2x1);
           ("c.JPG"%string, Some Samples.red_2x1);
           ("README"%string, None)] /\
   NoDup ["b.png"; "a.jpeg"; ".hidden.png"; "notes.txt"; "a.jpg"; "c.JPG";
          "README"]%string) /\
  image_files_of Samples.mixed_directory = ["a.jpg"; "a.jpeg"; "b.png"]%string /\
  NoDup (image_files_of Samples.mixed_directory) /\
  (In "a.jpeg"%string (image_files_of Samples.mixed_directory) <->
   In "a.jpeg"%string
      ["b.png"; "a.jpeg"; ".hidden.png"; "notes.txt"; "a.jpg"; "c.JPG";
       "README"]%string /\
   prefix "." "a.jpeg" = false /\
   (with_ext ".jpg" "a.jpeg" = true \/ with_ext ".jpeg" "a.jpeg" = true
    \/ with_ext ".png" "a.jpeg" = true)).
Proof.
  split; [split; [reflexivity | exact mixed_directory_names_distinct]|].
  split; [reflexivity|].
  destruct (pictures_listed_once Samples.mixed_directory _ eq_refl
              mixed_directory_names_distinct) as (Hnd & Hmem).
  split; [exact Hnd | exact (Hmem "a.jpeg"%string)].
Defined.
